(** * Elster-over-CAN telegram reader: [parse_telegram] of can_ready_v3.py

    A shallow embedding of the per-frame routine of the CAN-to-MQTT reader.
    The routine reads the payload of one CAN message, extracts the Elster
    index and the optional raw value, asks the Elster table for the entry of
    that index, interprets the raw value, prints log lines according to the
    verbosity and publishes "answer" telegrams to the MQTT client.

    The external collaborators (the functions imported from elster_table,
    the rendering of a can.Message, the MQTT client) are parameters of the
    development; every call to them and every printed line is recorded, in
    program order, in a trace of events. *)

From Stdlib Require Import ZArith Lia Ascii String List Strings.Byte.
From stdpp Require Import base option list strings gmap pretty.

Local Open Scope string_scope.
Local Open Scope list_scope.
Local Open Scope Z_scope.

(** ** Python values used by the routine *)

(** An element of a bytearray, read as the Python int it yields. *)
Definition byte_val (b : byte) : Z := Z.of_N (Byte.to_N b).

(** [len(data)] as a Python int. *)
Definition len (data : list byte) : Z := Z.of_nat (length data).

(** The payload of a received CAN message together with its identifier
    ([can.Message]); only [data] is read by [parse_telegram]. *)
Record Message := mkMessage {
  arbitration_id : Z;
  data : list byte
}.

(** ** Text formatting *)

Definition hex_digit (upper : bool) (d : Z) : ascii :=
  match d with
  | 0 => "0" | 1 => "1" | 2 => "2" | 3 => "3" | 4 => "4"
  | 5 => "5" | 6 => "6" | 7 => "7" | 8 => "8" | 9 => "9"
  | 10 => if upper then "A" else "a"
  | 11 => if upper then "B" else "b"
  | 12 => if upper then "C" else "c"
  | 13 => if upper then "D" else "d"
  | 14 => if upper then "E" else "e"
  | _ => if upper then "F" else "f"
  end%char.

Fixpoint hex_go (fuel : nat) (upper : bool) (n : Z) (acc : string) : string :=
  match fuel with
  | O => acc
  | S fuel' =>
      let acc' := String (hex_digit upper (n mod 16)) acc in
      if n / 16 =? 0 then acc' else hex_go fuel' upper (n / 16) acc'
  end.

(** The hexadecimal digits of a non-negative int, most significant first. *)
Definition hex_of (upper : bool) (n : Z) : string :=
  hex_go (S (Z.to_nat (Z.log2 n))) upper n "".

Fixpoint zeros (k : nat) : string :=
  match k with
  | O => ""
  | S k' => String "0"%char (zeros k')
  end.

Definition zfill (width : nat) (s : string) : string :=
  zeros (width - String.length s) +:+ s.

(** The format specification [0<width>X]: upper-case hexadecimal, filled
    with zeros after the sign up to [width] characters. *)
Definition format_0X (width : nat) (n : Z) : string :=
  if n <? 0 then "-" +:+ zfill (width - 1) (hex_of true (Z.abs n))
  else zfill width (hex_of true n).

(** [bytearray.hex()]: two lower-case digits per byte. *)
Fixpoint bytes_hex (bs : list byte) : string :=
  match bs with
  | [] => ""
  | b :: bs' =>
      String (hex_digit false (byte_val b / 16))
        (String (hex_digit false (byte_val b mod 16)) (bytes_hex bs'))
  end.

(** [str] of a Python int. *)
Definition str_int (n : Z) : string := pretty n.

(** ** Effects: exceptions and the trace of external calls *)

Inductive exn : Type :=
  | IndexError
  | KeyError (key : string).

Section Events.
Context {pyobj client : Type}.

Inductive event : Type :=
  | CallLookup (index : Z)
  | CallInterpret (raw_val : Z) (elster_type : pyobj)
  | Print (line : string)
  | Publish (c : client) (topic payload : string).
End Events.
Arguments event : clear implicits.

(** A computation yields the events it performed and then either a value or
    the exception that stopped it. *)
Definition M (pyobj client A : Type) : Type :=
  (list (event pyobj client) * (exn + A))%type.

Section Monad.
Context {pyobj client : Type}.
#[local] Abbreviation M := (M pyobj client).

Definition ret {A} (a : A) : M A := ([], inr a).

Definition bind {A B} (m : M A) (f : A -> M B) : M B :=
  match m with
  | (t, inl e) => (t, inl e)
  | (t, inr a) => let '(t', r) := f a in (t ++ t', r)
  end.

Definition raise {A} (e : exn) : M A := ([], inl e).

Definition emit (ev : event pyobj client) : M unit := ([ev], inr tt).

Definition trace {A} (m : M A) : list (event pyobj client) := fst m.
Definition outcome {A} (m : M A) : exn + A := snd m.
End Monad.

Declare Scope py_scope.
Delimit Scope py_scope with py.
Notation "x <- m ;; k" := (bind m (fun x => k))
  (at level 100, m at next level, right associativity) : py_scope.
Notation "m ;;; k" := (bind m (fun _ => k))
  (at level 100, right associativity) : py_scope.
Local Open Scope py_scope.

(** ** The routine *)

(** The label table of the routine, [{1: "[Request]", 2: "[Answer]",
    9: "[Change]"}]. *)
Definition type_dict : gmap Z string :=
  <[1 := "[Request]"]> (<[2 := "[Answer]"]> (<[9 := "[Change]"]> ∅)).

Section ParseTelegram.
Context {pyobj client : Type}.

(** [str(x)] and the empty format specification on a value of the table. *)
Variable py_str : pyobj -> string.
(** [str(msg)] of python-can. *)
Variable Message_str : Message -> string.
(** The two functions imported from elster_table. *)
Variable lookup_elster_index : Z -> gmap string pyobj.
Variable interpret_elster_value : Z -> pyobj -> pyobj.

#[local] Abbreviation M := (M pyobj client).

(** [data[i]] *)
Definition getitem (d : list byte) (i : nat) : M Z :=
  match d !! i with
  | Some b => ret (byte_val b)
  | None => raise IndexError
  end.

(** [entry[k]] *)
Definition dict_getitem (entry : gmap string pyobj) (k : string) : M pyobj :=
  match entry !! k with
  | Some v => ret v
  | None => raise (KeyError k)
  end.

Definition print (line : string) : M unit := emit (Print line).

Definition call_lookup (index : Z) : M (gmap string pyobj) :=
  emit (CallLookup index) ;;; ret (lookup_elster_index index).

Definition call_interpret (raw_val : Z) (elster_type : pyobj) : M pyobj :=
  emit (CallInterpret raw_val elster_type) ;;;
  ret (interpret_elster_value raw_val elster_type).

(** The printed lines, one definition per f-string of the source. *)
Definition invalid_line (d : list byte) : string :=
  "[Invalid] Too few bytes: " +:+ bytes_hex d.

Definition full_line (type_str : string) (can_id elster_index : Z)
    (elster_name interpreted_value elster_type : pyobj) : string :=
  type_str +:+ " CAN-ID: " +:+ format_0X 3 can_id +:+ " | " +:+
  "Elster-Index: 0x" +:+ format_0X 4 elster_index +:+
  " (" +:+ py_str elster_name +:+ ") | " +:+
  "Value: " +:+ py_str interpreted_value +:+
  " | Type: " +:+ py_str elster_type.

Definition terse_line (elster_index : Z) (interpreted_value : pyobj) : string :=
  "Ans 0x" +:+ format_0X 4 elster_index +:+ " -> " +:+
  py_str interpreted_value.

Definition debug_msg_line (msg : Message) : string :=
  "  [DEBUG] Raw message: " +:+ Message_str msg.
Definition debug_hex_line (d : list byte) : string :=
  "  [DEBUG] data(hex): " +:+ bytes_hex d.
Definition debug_raw_line (raw_val : Z) : string :=
  "  [DEBUG] raw_val: " +:+ str_int raw_val.

Definition parse_telegram (msg : Message) (mqtt_client : option client)
    (mqtt_prefix : string) (verbosity : Z) : M unit :=
  let data := data msg in
  if len data <? 5 then
    if verbosity >=? 2 then print (invalid_line data) else ret tt
  else
    b3 <- getitem data 3 ;;
    b4 <- getitem data 4 ;;
    let elster_index := Z.lor (Z.shiftl b3 8) b4 in
    raw_val <-
      (if len data >=? 7 then
         b5 <- getitem data 5 ;;
         b6 <- getitem data 6 ;;
         ret (Z.lor (Z.shiftl b5 8) b6)
       else ret 0) ;;
    b0 <- getitem data 0 ;;
    let telegram_type := Z.land b0 0x0F in
    b0' <- getitem data 0 ;;
    let address_high := Z.land b0' 0xF0 in
    address_low <- getitem data 1 ;;
    let can_id := address_high * 8 + address_low in
    entry <- call_lookup elster_index ;;
    elster_name <- dict_getitem entry "Name" ;;
    elster_type <- dict_getitem entry "Type" ;;
    let english_name := default elster_name (entry !! "EnglishName") in
    interpreted_value <- call_interpret raw_val elster_type ;;
    let type_str := default "[Unknown]" (type_dict !! telegram_type) in
    (if verbosity >=? 2 then
       print (full_line type_str can_id elster_index elster_name
                interpreted_value elster_type)
     else if (verbosity =? 1) && (telegram_type =? 2) then
       print (terse_line elster_index interpreted_value)
     else ret tt) ;;;
    (if verbosity >=? 3 then
       print (debug_msg_line msg) ;;;
       print (debug_hex_line data) ;;;
       print (debug_raw_line raw_val)
     else ret tt) ;;;
    match mqtt_client with
    | Some c =>
        if telegram_type =? 2 then
          let topic := mqtt_prefix +:+ py_str english_name in
          emit (Publish c topic (py_str interpreted_value))
        else ret tt
    | None => ret tt
    end.

End ParseTelegram.

(** ** Reading a trace *)

Section Observations.
Context {pyobj client : Type}.

(** The lines printed, in order. *)
Definition printed (t : list (event pyobj client)) : list string :=
  omap (fun ev => match ev with Print line => Some line | _ => None end) t.

(** The [publish] calls made on the MQTT client, in order. *)
Definition published (t : list (event pyobj client))
    : list (client * string * string) :=
  omap (fun ev => match ev with
                  | Publish c topic payload => Some (c, topic, payload)
                  | _ => None
                  end) t.

(** The indices handed to [lookup_elster_index], in order. *)
Definition looked_up (t : list (event pyobj client)) : list Z :=
  omap (fun ev => match ev with CallLookup i => Some i | _ => None end) t.

(** The arguments handed to [interpret_elster_value], in order. *)
Definition interpreted (t : list (event pyobj client)) : list (Z * pyobj) :=
  omap (fun ev => match ev with
                  | CallInterpret r ty => Some (r, ty)
                  | _ => None
                  end) t.

End Observations.

(** [byte_at d i] is byte [i] of the frame as an int; the theorems use it
    only for positions that the length of the frame makes valid. *)
Definition byte_at (d : list byte) (i : nat) : Z :=
  from_option byte_val 0 (d !! i).

(** The four fields that the routine computes from the payload, written with
    [byte_at]; [parse_telegram_valid] relates them to the routine. *)
Definition elster_index_of (d : list byte) : Z :=
  Z.lor (Z.shiftl (byte_at d 3) 8) (byte_at d 4).

Definition raw_val_of (d : list byte) : Z :=
  if len d >=? 7 then Z.lor (Z.shiftl (byte_at d 5) 8) (byte_at d 6) else 0.

Definition telegram_type_of (d : list byte) : Z := Z.land (byte_at d 0) 0x0F.

Definition can_id_of (d : list byte) : Z :=
  Z.land (byte_at d 0) 0xF0 * 8 + byte_at d 1.

(** The device address as the specification words it: the high nibble of
    byte 0 taken as a 4-bit number, times 8, plus byte 1. *)
Definition spec_device_address (d : list byte) : Z :=
  Z.shiftr (byte_at d 0) 4 * 8 + byte_at d 1.

(** The kinds of telegram the specification names. *)
Inductive TelegramKind : Type := Request | Answer | Change | Unknown.

Definition kind_of_type (telegram_type : Z) : TelegramKind :=
  if telegram_type =? 1 then Request
  else if telegram_type =? 2 then Answer
  else if telegram_type =? 9 then Change
  else Unknown.

Definition kind_label (k : TelegramKind) : string :=
  match k with
  | Request => "[Request]"
  | Answer => "[Answer]"
  | Change => "[Change]"
  | Unknown => "[Unknown]"
  end.

(** ** The events of a telegram, written out

    What the routine prints and publishes once the fields, the entry of the
    table and the interpreted value are known. [parse_telegram_valid] shows
    that the routine performs exactly these events. *)

Section Expected.
Context {pyobj client : Type}.
Variable py_str : pyobj -> string.
Variable Message_str : Message -> string.

Definition debug_block (msg : Message) : list string :=
  [ debug_msg_line Message_str msg;
    debug_hex_line (data msg);
    debug_raw_line (raw_val_of (data msg)) ].

Definition log_lines (msg : Message) (verbosity : Z)
    (elster_name elster_type interpreted_value : pyobj) : list string :=
  let d := data msg in
  (if verbosity >=? 2 then
     [ full_line py_str (default "[Unknown]" (type_dict !! telegram_type_of d))
         (can_id_of d) (elster_index_of d)
         elster_name interpreted_value elster_type ]
   else if (verbosity =? 1) && (telegram_type_of d =? 2) then
     [ terse_line py_str (elster_index_of d) interpreted_value ]
   else []) ++
  (if verbosity >=? 3 then debug_block msg else []).

Definition publish_calls (msg : Message) (mqtt_client : option client)
    (mqtt_prefix : string) (english_name interpreted_value : pyobj)
    : list (client * string * string) :=
  match mqtt_client with
  | Some c =>
      if telegram_type_of (data msg) =? 2 then
        [ (c, mqtt_prefix +:+ py_str english_name, py_str interpreted_value) ]
      else []
  | None => []
  end.

Definition telegram_events (msg : Message) (mqtt_client : option client)
    (mqtt_prefix : string) (verbosity : Z)
    (entry : gmap string pyobj) (elster_name elster_type interpreted_value : pyobj)
    : list (event pyobj client) :=
  [ CallLookup (elster_index_of (data msg));
    CallInterpret (raw_val_of (data msg)) elster_type ] ++
  map Print (log_lines msg verbosity elster_name elster_type interpreted_value) ++
  map (fun '(c, topic, payload) => Publish c topic payload)
    (publish_calls msg mqtt_client mqtt_prefix
       (default elster_name (entry !! "EnglishName")) interpreted_value).

End Expected.

(** ** A sample table, used to run the routine on concrete frames *)

Inductive pyval : Type :=
  | PStr (s : string)
  | PInt (z : Z).

Definition pyval_str (v : pyval) : string :=
  match v with
  | PStr s => s
  | PInt z => str_int z
  end.

(** Index 100 is registered with an English name, index 1 without one; every
    other index yields the entry of an unknown index. *)
Definition sample_lookup (index : Z) : gmap string pyval :=
  if index =? 100 then
    <["Name" := PStr "AUSSENTEMP"]>
      (<["EnglishName" := PStr "outside_temp"]>
         (<["Type" := PStr "et_dec_val"]> ∅))
  else if index =? 1 then
    <["Name" := PStr "FEHLERMELDUNG"]> (<["Type" := PStr "et_default"]> ∅)
  else
    <["Name" := PStr "UNKNOWN"]> (<["Type" := PStr "et_default"]> ∅).

Definition sample_interpret (raw_val : Z) (elster_type : pyval) : pyval :=
  PInt raw_val.

Definition sample_Message_str (msg : Message) : string :=
  "ID: " +:+ format_0X 3 (arbitration_id msg) +:+ " DL: " +:+
  str_int (len (data msg)).

(** The routine running against the sample table and a client named [tt]. *)
Definition sample_parse : Message -> option unit -> string -> Z -> M pyval unit unit :=
  parse_telegram pyval_str sample_Message_str sample_lookup sample_interpret.

Definition frame_answer : Message :=
  mkMessage 0x180 [x12; x05; x00; x00; x64; x01; x2c].
Definition frame_answer' : Message :=
  mkMessage 0x180 [x12; x05; xff; x00; x64; x01; x2c].
Definition frame_change : Message :=
  mkMessage 0x180 [x19; x00; x00; x00; x01].
Definition frame_short : Message :=
  mkMessage 0x180 [x00; x00].

(** ** The program: [main]

    [main] sets up the MQTT client, opens the CAN bus and hands every
    received message to [parse_telegram] until an exception ends the loop.
    The command line is already parsed ([Args] is the namespace that
    [parse_args] returns). What the outside world answers to each call that
    can fail is given by an [Env]: whether [connect], [loop_start] and the
    opening of the bus return or raise, what the successive [recv] calls
    return, and the exception that ends the last [recv]. Ctrl+C is taken to
    arrive during one of these calls; the other calls on the client
    ([username_pw_set], [loop_stop], [disconnect]) are taken to return. *)

Record Args := mkArgs {
  mqtt_server : string;
  mqtt_port : Z;
  mqtt_user : option string;
  mqtt_pass : option string;
  mqtt_prefix : string;
  verbosity : Z
}.

(** An exception raised by an external call: Ctrl+C, or an [Exception] with
    its text. *)
Inductive raised : Type :=
  | Interrupt
  | Fails (text : string).

Inductive result : Type :=
  | Returns
  | Raises (r : raised).

Record Env := mkEnv {
  connect_result : result;
  loop_start_result : result;
  bus_result : result;
  recvs : list (option Message);
  recv_stop : raised
}.

(** What can leave [main]: Ctrl+C, an error of an external call, or an
    exception of [parse_telegram]. *)
Inductive failure : Type :=
  | KeyboardInterrupt
  | Error (text : string)
  | Uncaught (e : exn).

(** [str(e)] of the exceptions of [parse_telegram]. *)
Definition exn_str (e : exn) : string :=
  match e with
  | IndexError => "bytearray index out of range"
  | KeyError key => "'" +:+ key +:+ "'"
  end.

Definition failure_str (f : failure) : string :=
  match f with
  | KeyboardInterrupt => ""
  | Error text => text
  | Uncaught e => exn_str e
  end.

Definition failure_of (r : raised) : failure :=
  match r with
  | Interrupt => KeyboardInterrupt
  | Fails text => Error text
  end.

(** Truth value of an optional string argument: [None] and the empty string
    are false. *)
Definition truthy (o : option string) : bool :=
  match o with
  | Some s => negb (String.eqb s "")
  | None => false
  end.

(** [str] of an optional string argument. *)
Definition str_opt (o : option string) : string :=
  match o with
  | Some s => s
  | None => "None"
  end.

(** [s * n] *)
Fixpoint str_mul (s : string) (n : nat) : string :=
  match n with
  | O => ""
  | S n' => s +:+ str_mul s n'
  end.

Definition nl : string := String "010"%char "".

Section MainEvents.
Context {pyobj client : Type}.

Inductive main_event : Type :=
  | Telegram (ev : event pyobj client)
  | UsernamePwSet (c : client) (username password : option string)
  | Connect (c : client) (host : string) (port keepalive : Z)
  | LoopStart (c : client)
  | LoopStop (c : client)
  | Disconnect (c : client)
  | BusOpen (channel bustype : string)
  | Recv (timeout : Z).
End MainEvents.
Arguments main_event : clear implicits.

Definition R (pyobj client A : Type) : Type :=
  (list (main_event pyobj client) * (failure + A))%type.

Declare Scope run_scope.
Delimit Scope run_scope with run.

Section Main.
Context {pyobj client : Type}.
Variable py_str : pyobj -> string.
Variable Message_str : Message -> string.
Variable lookup_elster_index : Z -> gmap string pyobj.
Variable interpret_elster_value : Z -> pyobj -> pyobj.

#[local] Abbreviation R := (R pyobj client).

Definition rret {A} (a : A) : R A := ([], inr a).

Definition rbind {A B} (m : R A) (f : A -> R B) : R B :=
  match m with
  | (t, inl e) => (t, inl e)
  | (t, inr a) => let '(t', r) := f a in (t ++ t', r)
  end.

#[local] Notation "x <- m ;; k" := (rbind m (fun x => k))
  (at level 100, m at next level, right associativity) : run_scope.
#[local] Notation "m ;;; k" := (rbind m (fun _ => k))
  (at level 100, right associativity) : run_scope.
Local Open Scope run_scope.

(** A call to the outside world: the call is recorded, then it returns or
    raises as the environment says. *)
Definition call (ev : main_event pyobj client) (r : result) : R unit :=
  ([ev], match r with
         | Returns => inr tt
         | Raises x => inl (failure_of x)
         end).

Definition mprint (line : string) : R unit := ([Telegram (Print line)], inr tt).

(** A call of [parse_telegram] from [main]. *)
Definition call_parse (msg : Message) (mqtt_client : option client)
    (mqtt_prefix : string) (verbosity : Z) : R unit :=
  let m := parse_telegram py_str Message_str lookup_elster_index
             interpret_elster_value msg mqtt_client mqtt_prefix verbosity in
  (map Telegram (trace m),
   match outcome m with
   | inl e => inl (Uncaught e)
   | inr a => inr a
   end).

(** [try: body except Exception as e: handler(e)] *)
Definition except_Exception {A} (body : R A) (handler : failure -> R A) : R A :=
  match body with
  | (t, inl KeyboardInterrupt) => (t, inl KeyboardInterrupt)
  | (t, inl e) => (t, inr tt) ;;; handler e
  | (t, inr a) => (t, inr a)
  end.

(** [try: body except KeyboardInterrupt: handler] *)
Definition except_KeyboardInterrupt {A} (body : R A) (handler : R A) : R A :=
  match body with
  | (t, inl KeyboardInterrupt) => (t, inr tt) ;;; handler
  | other => other
  end.

(** [try: body finally: final]: [final] always runs; an exception of [body]
    goes on afterwards unless [final] raises itself. *)
Definition finally {A} (body : R A) (final : R unit) : R A :=
  let '(t, r) := body in
  let '(t', r') := final in
  (t ++ t', match r' with
            | inl e => inl e
            | inr _ => r
            end).

(** The [while True] loop: one [recv] per round; a timeout ([None]) goes to
    the next round, a message is parsed. The loop ends only by an
    exception: one raised by [parse_telegram], or [stop], raised by the
    [recv] that follows the results listed. *)
Fixpoint recv_loop (mqtt_client : option client) (args : Args)
    (results : list (option Message)) (stop : raised) : R unit :=
  match results with
  | [] => call (Recv 1) (Raises stop)
  | None :: rest =>
      call (Recv 1) Returns ;;;
      recv_loop mqtt_client args rest stop
  | Some msg :: rest =>
      call (Recv 1) Returns ;;;
      call_parse msg mqtt_client (mqtt_prefix args) (verbosity args) ;;;
      recv_loop mqtt_client args rest stop
  end.

(** [c] is the object that [mqtt.Client()] returns. *)
Definition main (args : Args) (c : client) (env : Env) : R unit :=
  (if verbosity args >=? 1 then
     mprint "Starting CAN reader & Elster interpretation ..." ;;;
     mprint (str_mul "=" 70) ;;;
     mprint ("MQTT server: " +:+ mqtt_server args +:+ ":" +:+
             str_int (mqtt_port args) +:+ ", user=" +:+ str_opt (mqtt_user args))
   else rret tt) ;;;
  (if truthy (mqtt_user args) && truthy (mqtt_pass args) then
     call (UsernamePwSet c (mqtt_user args) (mqtt_pass args)) Returns
   else rret tt) ;;;
  mqtt_client <-
    except_Exception
      (call (Connect c (mqtt_server args) (mqtt_port args) 60)
         (connect_result env) ;;;
       call (LoopStart c) (loop_start_result env) ;;;
       rret (Some c))
      (fun e =>
         (if verbosity args >=? 1 then
            mprint ("[MQTT] Could not connect: " +:+ failure_str e) ;;;
            mprint "Continuing without MQTT ..."
          else rret tt) ;;;
         rret None) ;;
  finally
    (except_KeyboardInterrupt
       (call (BusOpen "can0" "socketcan") (bus_result env) ;;;
        recv_loop mqtt_client args (recvs env) (recv_stop env))
       (if verbosity args >=? 1 then
          mprint (nl +:+ "Interrupted by user (Ctrl+C).")
        else rret tt))
    ((if verbosity args >=? 1 then mprint (nl +:+ "Exiting.") else rret tt) ;;;
     match mqtt_client with
     | Some c' => call (LoopStop c') Returns ;;; call (Disconnect c') Returns
     | None => rret tt
     end).

End Main.

(** ** Reading the trace of a run *)

Section MainObservations.
Context {pyobj client : Type}.

(** The events that come from printing, publishing and the table. *)
Definition telegram_part (t : list (main_event pyobj client))
    : list (event pyobj client) :=
  omap (fun ev => match ev with Telegram e => Some e | _ => None end) t.

(** The calls made on the MQTT client and the bus other than [publish] and
    [recv]: credentials, connection, opening of the bus and clean-up. *)
Definition setup_part (t : list (main_event pyobj client))
    : list (main_event pyobj client) :=
  omap (fun ev => match ev with
                  | Telegram _ | Recv _ => None
                  | _ => Some ev
                  end) t.

End MainObservations.

(** The messages among the results of [recv]. *)
Definition messages (results : list (option Message)) : list Message :=
  omap id results.

(** A run against the sample table. *)
Definition sample_main : Args -> unit -> Env -> R pyval unit unit :=
  main pyval_str sample_Message_str sample_lookup sample_interpret.

Definition sample_args (v : Z) : Args :=
  mkArgs "localhost" 1883 None None "elster/" v.

(** ** The phases of a run, written out

    How the attempt to connect ended, and the events of each phase of
    [main]; [main_unfold] shows that a run consists of exactly these. *)

Inductive connection : Type :=
  | Connected
  | Unavailable (text : string)
  | Aborted.

(** [connect] and [loop_start] both returned; or one of them raised an
    [Exception]; or Ctrl+C arrived during one of them. *)
Definition connection_of (env : Env) : connection :=
  match connect_result env with
  | Returns =>
      match loop_start_result env with
      | Returns => Connected
      | Raises (Fails text) => Unavailable text
      | Raises Interrupt => Aborted
      end
  | Raises (Fails text) => Unavailable text
  | Raises Interrupt => Aborted
  end.

Section Phases.
Context {pyobj client : Type}.

(** The value of [mqtt_client] once the attempt to connect is over. *)
Definition client_after_connect (c : client) (env : Env) : option client :=
  match connection_of env with
  | Connected => Some c
  | _ => None
  end.

Definition startup_events (args : Args) : list (main_event pyobj client) :=
  if verbosity args >=? 1 then
    [ Telegram (Print "Starting CAN reader & Elster interpretation ...");
      Telegram (Print (str_mul "=" 70));
      Telegram (Print ("MQTT server: " +:+ mqtt_server args +:+ ":" +:+
                       str_int (mqtt_port args) +:+ ", user=" +:+
                       str_opt (mqtt_user args))) ]
  else [].

Definition credential_events (args : Args) (c : client)
    : list (main_event pyobj client) :=
  if truthy (mqtt_user args) && truthy (mqtt_pass args) then
    [ UsernamePwSet c (mqtt_user args) (mqtt_pass args) ]
  else [].

Definition connect_events (args : Args) (c : client) (env : Env)
    : list (main_event pyobj client) :=
  Connect c (mqtt_server args) (mqtt_port args) 60 ::
  match connect_result env with
  | Returns => [ LoopStart c ]
  | Raises _ => []
  end ++
  match connection_of env with
  | Unavailable text =>
      if verbosity args >=? 1 then
        [ Telegram (Print ("[MQTT] Could not connect: " +:+ text));
          Telegram (Print "Continuing without MQTT ...") ]
      else []
  | _ => []
  end.

Definition interrupted_events (args : Args) : list (main_event pyobj client) :=
  if verbosity args >=? 1 then
    [ Telegram (Print (nl +:+ "Interrupted by user (Ctrl+C).")) ]
  else [].

Definition exit_events (args : Args) (mqtt_client : option client)
    : list (main_event pyobj client) :=
  (if verbosity args >=? 1 then [ Telegram (Print (nl +:+ "Exiting.")) ]
   else []) ++
  match mqtt_client with
  | Some c => [ LoopStop c; Disconnect c ]
  | None => []
  end.

End Phases.

(** Sample environments: a run that connects and is ended by Ctrl+C, a run
    whose broker refuses the connection and whose bus fails, and a run cut
    by Ctrl+C while connecting. *)
Definition sample_results : list (option Message) :=
  [None; Some frame_answer; Some frame_short; None; Some frame_change].

Definition env_plain : Env :=
  mkEnv Returns Returns Returns sample_results Interrupt.
Definition env_refused : Env :=
  mkEnv (Raises (Fails "refused")) Returns Returns sample_results
    (Fails "bus down").
Definition env_aborted : Env :=
  mkEnv Returns (Raises Interrupt) Returns sample_results Interrupt.

(** A table with two defective entries: the entry of index 100 has no
    [Name], the entry of index 1 has no [Type]. *)
Definition defective_lookup (index : Z) : gmap string pyval :=
  if index =? 100 then <["Type" := PStr "et_dec_val"]> ∅
  else if index =? 1 then <["Name" := PStr "FEHLERMELDUNG"]> ∅
  else sample_lookup index.

Definition defective_parse : Message -> option unit -> string -> Z -> M pyval unit unit :=
  parse_telegram pyval_str sample_Message_str defective_lookup sample_interpret.

Definition defective_main : Args -> unit -> Env -> R pyval unit unit :=
  main pyval_str sample_Message_str defective_lookup sample_interpret.

(** The answer frame followed by an eighth byte, under another identifier. *)
Definition frame_answer_long : Message :=
  mkMessage 0x301 [x12; x05; x00; x00; x64; x01; x2c; x7f].

(** ** Basic facts about the monad and the accessors *)

Section Basics.
Context {pyobj client : Type}.
#[local] Abbreviation M := (M pyobj client).

Lemma bind_ret_l {A B} (a : A) (f : A -> M B) : bind (ret a) f = f a.
Proof. unfold bind, ret. by destruct (f a). Qed.

Lemma bind_emit {B} (ev : event pyobj client) (k : unit -> M B) :
  bind (emit ev) k = (ev :: fst (k tt), snd (k tt)).
Proof. unfold bind, emit. by destruct (k tt). Qed.

Lemma bind_value {A B} (t : list (event pyobj client)) (a : A) (f : A -> M B) :
  bind (t, inr a) f = (t ++ fst (f a), snd (f a)).
Proof. unfold bind. by destruct (f a). Qed.

Lemma bind_raise {A B} (e : exn) (f : A -> M B) :
  bind (raise e) f = ([], inl e).
Proof. reflexivity. Qed.

Lemma getitem_in_range (d : list byte) (i : nat) :
  Z.of_nat i < len d -> @getitem pyobj client d i = ret (byte_at d i).
Proof.
  unfold len, getitem, byte_at. intros Hi.
  destruct (d !! i) eqn:E; [done|].
  apply lookup_ge_None in E. lia.
Qed.

End Basics.

Lemma omap_map_None {A B C} (g : A -> B) (f : B -> option C) (l : list A) :
  (forall a, f (g a) = None) -> omap f (map g l) = [].
Proof.
  intros Hfg. induction l as [|a l IH]; [done|].
  cbn. by rewrite Hfg.
Qed.

Lemma omap_map_Some {A B} (g : A -> B) (f : B -> option A) (l : list A) :
  (forall a, f (g a) = Some a) -> omap f (map g l) = l.
Proof.
  intros Hfg. induction l as [|a l IH]; [done|].
  cbn. by rewrite Hfg, IH.
Qed.

Lemma byte_val_range (b : byte) : 0 <= byte_val b < 256.
Proof.
  unfold byte_val. pose proof (Byte.to_N_bounded b) as H.
  lia.
Qed.

Lemma byte_at_range (d : list byte) (i : nat) : 0 <= byte_at d i < 256.
Proof.
  unfold byte_at. destruct (d !! i) as [b|]; simpl.
  - apply byte_val_range.
  - lia.
Qed.

Lemma type_dict_get (t : Z) :
  default "[Unknown]" (type_dict !! t) = kind_label (kind_of_type t).
Proof.
  unfold type_dict, kind_of_type.
  rewrite !lookup_insert, lookup_empty.
  repeat case_decide; subst; try reflexivity;
    destruct (t =? 1) eqn:E1; destruct (t =? 2) eqn:E2;
    destruct (t =? 9) eqn:E9; try lia; reflexivity.
Qed.

Lemma land_0F_range (z : Z) : 0 <= Z.land z 0x0F < 16.
Proof.
  change 0x0F with (Z.ones 4). rewrite Z.land_ones by lia.
  apply Z.mod_pos_bound. lia.
Qed.

Lemma land_F0_byte (b : byte) :
  Z.land (byte_val b) 0xF0 = 16 * (byte_val b / 16).
Proof. destruct b; reflexivity. Qed.

Lemma land_F0_byte_at (d : list byte) (i : nat) :
  Z.land (byte_at d i) 0xF0 = 16 * (byte_at d i / 16).
Proof.
  unfold byte_at. destruct (d !! i) as [b|]; cbn [from_option].
  - apply land_F0_byte.
  - reflexivity.
Qed.

Lemma len_insert (d : list byte) (i : nat) (b : byte) :
  len (<[i:=b]> d) = len d.
Proof. unfold len. by rewrite length_insert. Qed.

Lemma byte_at_insert_ne (d : list byte) (i j : nat) (b : byte) :
  i <> j -> byte_at (<[i:=b]> d) j = byte_at d j.
Proof. intros Hij. unfold byte_at. by rewrite list_lookup_insert_ne. Qed.

(** The formatting functions on the values of the sample frames. *)

Example format_0X_can_id : format_0X 3 133 = "085" /\ format_0X 3 2175 = "87F".
Proof. split; reflexivity. Qed.

Example format_0X_index : format_0X 4 100 = "0064" /\ format_0X 4 0xABCD = "ABCD".
Proof. split; reflexivity. Qed.

Example bytes_hex_frame : bytes_hex (data frame_answer) = "1205000064012c".
Proof. reflexivity. Qed.

Example str_int_raw : str_int 300 = "300" /\ str_int 0 = "0".
Proof. split; reflexivity. Qed.

Example sample_parse_answer_debug :
  sample_parse frame_answer (Some tt) "elster/" 3 =
  ([ CallLookup 100;
     CallInterpret 300 (PStr "et_dec_val");
     Print "[Answer] CAN-ID: 085 | Elster-Index: 0x0064 (AUSSENTEMP) | Value: 300 | Type: et_dec_val";
     Print "  [DEBUG] Raw message: ID: 180 DL: 7";
     Print "  [DEBUG] data(hex): 1205000064012c";
     Print "  [DEBUG] raw_val: 300";
     Publish tt "elster/outside_temp" "300" ],
   inr tt).
Proof. reflexivity. Qed.

Example sample_parse_change :
  sample_parse frame_change (Some tt) "elster/" 1 =
  ([CallLookup 1; CallInterpret 0 (PStr "et_default")], inr tt).
Proof. reflexivity. Qed.

(** ** The routine on a frame of at least five bytes *)

Section Valid.
Context {pyobj client : Type}.
Variable py_str : pyobj -> string.
Variable Message_str : Message -> string.
Variable lookup_elster_index : Z -> gmap string pyobj.
Variable interpret_elster_value : Z -> pyobj -> pyobj.

#[local] Abbreviation parse :=
  (parse_telegram (client:=client) py_str Message_str
     lookup_elster_index interpret_elster_value).

Lemma raw_val_read (d : list byte) {B} (k : Z -> M pyobj client B) :
  bind (if len d >=? 7 then
          b5 <- getitem d 5 ;;
          b6 <- getitem d 6 ;;
          ret (Z.lor (Z.shiftl b5 8) b6)
        else ret 0) k = k (raw_val_of d).
Proof.
  unfold raw_val_of. destruct (len d >=? 7) eqn:E.
  - assert (7 <= len d) by lia.
    rewrite !getitem_in_range by lia. by rewrite !bind_ret_l.
  - by rewrite bind_ret_l.
Qed.

Lemma parse_telegram_valid msg mqtt_client mqtt_prefix verbosity :
  5 <= len (data msg) ->
  parse msg mqtt_client mqtt_prefix verbosity =
  let entry := lookup_elster_index (elster_index_of (data msg)) in
  match entry !! "Name", entry !! "Type" with
  | Some elster_name, Some elster_type =>
      (telegram_events py_str Message_str msg mqtt_client mqtt_prefix verbosity
         entry elster_name elster_type
         (interpret_elster_value (raw_val_of (data msg)) elster_type),
       inr tt)
  | None, _ => ([CallLookup (elster_index_of (data msg))], inl (KeyError "Name"))
  | Some _, None =>
      ([CallLookup (elster_index_of (data msg))], inl (KeyError "Type"))
  end.
Proof.
  intros Hlen. unfold parse_telegram.
  replace (len (data msg) <? 5) with false by lia.
  rewrite !(getitem_in_range _ 3), !(getitem_in_range _ 4) by lia.
  rewrite !bind_ret_l, raw_val_read.
  rewrite !(getitem_in_range _ 0), !(getitem_in_range _ 1) by lia.
  rewrite !bind_ret_l.
  fold (elster_index_of (data msg)) (telegram_type_of (data msg))
       (can_id_of (data msg)).
  unfold call_lookup. rewrite bind_emit. cbn [fst snd ret].
  rewrite bind_value. cbv zeta.
  set (entry := lookup_elster_index (elster_index_of (data msg))).
  unfold dict_getitem.
  destruct (entry !! "Name") as [elster_name|]; [|reflexivity].
  destruct (entry !! "Type") as [elster_type|]; [|reflexivity].
  unfold telegram_events, log_lines, publish_calls, debug_block, call_interpret, print.
  destruct (verbosity >=? 2), (verbosity >=? 3),
    ((verbosity =? 1) && (telegram_type_of (data msg) =? 2)),
    mqtt_client as [c|], (telegram_type_of (data msg) =? 2);
    reflexivity.
Qed.

(** What each observation sees of the events of a telegram. *)

Lemma printed_telegram_events msg mqtt_client mqtt_prefix verbosity
    entry elster_name elster_type interpreted_value :
  printed (telegram_events (client:=client) py_str Message_str msg mqtt_client
             mqtt_prefix verbosity entry elster_name elster_type
             interpreted_value) =
  log_lines py_str Message_str msg verbosity elster_name elster_type
    interpreted_value.
Proof.
  unfold telegram_events, printed. rewrite !omap_app. cbn [omap].
  rewrite omap_map_Some by done.
  rewrite omap_map_None by (by intros [[??]?]).
  by rewrite app_nil_r.
Qed.

Lemma published_telegram_events msg (mqtt_client : option client)
    mqtt_prefix verbosity
    entry elster_name elster_type interpreted_value :
  published (telegram_events py_str Message_str msg mqtt_client
               mqtt_prefix verbosity entry elster_name elster_type
               interpreted_value) =
  publish_calls py_str msg mqtt_client mqtt_prefix
    (default elster_name (entry !! "EnglishName")) interpreted_value.
Proof.
  unfold telegram_events, published. rewrite !omap_app. cbn [omap].
  rewrite omap_map_None by done.
  by rewrite omap_map_Some by (by intros [[??]?]).
Qed.

Lemma looked_up_telegram_events msg mqtt_client mqtt_prefix verbosity
    entry elster_name elster_type interpreted_value :
  looked_up (telegram_events (client:=client) py_str Message_str msg mqtt_client
               mqtt_prefix verbosity entry elster_name elster_type
               interpreted_value) =
  [elster_index_of (data msg)].
Proof.
  unfold telegram_events, looked_up. rewrite !omap_app. cbn [omap].
  rewrite omap_map_None by done.
  by rewrite omap_map_None by (by intros [[??]?]).
Qed.

Lemma interpreted_telegram_events msg mqtt_client mqtt_prefix verbosity
    entry elster_name elster_type interpreted_value :
  interpreted (telegram_events (client:=client) py_str Message_str msg
                 mqtt_client mqtt_prefix verbosity entry elster_name
                 elster_type interpreted_value) =
  [(raw_val_of (data msg), elster_type)].
Proof.
  unfold telegram_events, interpreted. rewrite !omap_app. cbn [omap].
  rewrite omap_map_None by done.
  by rewrite omap_map_None by (by intros [[??]?]).
Qed.

(** ** Frames that are too short *)

Lemma parse_telegram_short msg mqtt_client mqtt_prefix verbosity :
  len (data msg) < 5 ->
  parse msg mqtt_client mqtt_prefix verbosity =
  (if verbosity >=? 2 then [Print (invalid_line (data msg))] else [], inr tt).
Proof.
  intros Hlen. unfold parse_telegram.
  replace (len (data msg) <? 5) with true by lia.
  by destruct (verbosity >=? 2).
Qed.

(** C3. A frame of fewer than five bytes is not decoded: the routine returns
    normally, the table is not consulted, no value is interpreted, nothing is
    published, and the only event is the line with the hex dump of the raw
    bytes, printed when the verbosity is at least 2. *)
Theorem short_frame_skipped msg mqtt_client mqtt_prefix verbosity :
  len (data msg) < 5 ->
  outcome (parse msg mqtt_client mqtt_prefix verbosity) = inr tt /\
  trace (parse msg mqtt_client mqtt_prefix verbosity) =
    (if verbosity >=? 2
     then [Print ("[Invalid] Too few bytes: " +:+ bytes_hex (data msg))]
     else []) /\
  looked_up (trace (parse msg mqtt_client mqtt_prefix verbosity)) = [] /\
  interpreted (trace (parse msg mqtt_client mqtt_prefix verbosity)) = [] /\
  published (trace (parse msg mqtt_client mqtt_prefix verbosity)) = [].
Proof.
  intros Hlen. rewrite parse_telegram_short by done.
  unfold outcome, trace, invalid_line. cbn [fst snd].
  by destruct (verbosity >=? 2).
Qed.

(** ** Field extraction *)

(** C5. On a frame of at least five bytes the table is consulted exactly
    once, with the index [(byte 3 << 8) | byte 4], whatever the length of the
    frame and whatever the table answers. *)
Theorem lookup_index_big_endian msg mqtt_client mqtt_prefix verbosity :
  5 <= len (data msg) ->
  looked_up (trace (parse msg mqtt_client mqtt_prefix verbosity)) =
  [Z.lor (Z.shiftl (byte_at (data msg) 3) 8) (byte_at (data msg) 4)].
Proof.
  intros Hlen. rewrite parse_telegram_valid by done. cbv zeta.
  destruct (_ !! "Name") as [elster_name|]; [|done].
  destruct (_ !! "Type") as [elster_type|]; [|done].
  unfold trace. cbn [fst]. by rewrite looked_up_telegram_events.
Qed.

(** ** Publishing *)

(** C10. The publish calls of the routine, and whether it ends normally, do
    not depend on the verbosity: for every frame, client and prefix, any two
    verbosity values give the same sequence of publish calls. *)
Theorem publish_independent_of_verbosity msg mqtt_client mqtt_prefix v1 v2 :
  published (trace (parse msg mqtt_client mqtt_prefix v1)) =
  published (trace (parse msg mqtt_client mqtt_prefix v2)) /\
  outcome (parse msg mqtt_client mqtt_prefix v1) =
  outcome (parse msg mqtt_client mqtt_prefix v2).
Proof.
  destruct (Z.lt_ge_cases (len (data msg)) 5) as [Hshort|Hlong].
  - rewrite !parse_telegram_short by done. unfold trace, outcome. cbn [fst snd].
    by destruct (v1 >=? 2), (v2 >=? 2).
  - rewrite !parse_telegram_valid by done. cbv zeta.
    destruct (_ !! "Name") as [elster_name|]; [|done].
    destruct (_ !! "Type") as [elster_type|]; [|done].
    unfold trace, outcome. cbn [fst snd].
    by rewrite !published_telegram_events.
Qed.

(** C1. On a frame of at least five bytes whose table entry has a name and a
    type, the routine ends normally and publishes if and only if a client is
    given and the low nibble of byte 0 is 2 (an answer). It then makes exactly
    one call, whose topic is the prefix followed by the display name and whose
    payload is the text of the interpreted value. Requests, changes and
    unknown kinds publish nothing, and without a client nothing is published
    and nothing fails. *)
Theorem publish_iff_client_and_answer msg mqtt_client mqtt_prefix verbosity
    elster_name elster_type :
  5 <= len (data msg) ->
  lookup_elster_index (elster_index_of (data msg)) !! "Name" = Some elster_name ->
  lookup_elster_index (elster_index_of (data msg)) !! "Type" = Some elster_type ->
  outcome (parse msg mqtt_client mqtt_prefix verbosity) = inr tt /\
  published (trace (parse msg mqtt_client mqtt_prefix verbosity)) =
    match mqtt_client with
    | Some c =>
        if Z.land (byte_at (data msg) 0) 0x0F =? 2 then
          [ (c,
             mqtt_prefix +:+
               py_str (default elster_name
                         (lookup_elster_index (elster_index_of (data msg))
                            !! "EnglishName")),
             py_str (interpret_elster_value (raw_val_of (data msg)) elster_type)) ]
        else []
    | None => []
    end /\
  (published (trace (parse msg mqtt_client mqtt_prefix verbosity)) <> [] <->
   mqtt_client <> None /\
   kind_of_type (Z.land (byte_at (data msg) 0) 0x0F) = Answer).
Proof.
  intros Hlen Hname Htype. rewrite parse_telegram_valid by done. cbv zeta.
  rewrite Hname, Htype. unfold trace, outcome. cbn [fst snd].
  rewrite published_telegram_events. unfold publish_calls, telegram_type_of.
  split; [done|]. split; [done|].
  unfold kind_of_type.
  destruct mqtt_client as [c|];
    destruct (Z.land (byte_at (data msg) 0) 15 =? 2) eqn:E2;
    destruct (Z.land (byte_at (data msg) 0) 15 =? 1) eqn:E1;
    destruct (Z.land (byte_at (data msg) 0) 15 =? 9) eqn:E9;
    try lia; split; try done; intros []; done.
Qed.

(** C6. The label of a telegram is looked up in [type_dict] with the low
    nibble of byte 0, a number from 0 to 15: 1 gives the request label, 2 the
    answer label, 9 the change label and every other number the unknown
    label, so every value has a label. It is the label that opens the line
    printed for the telegram at verbosity 2 or more. *)
Theorem telegram_kind_total msg mqtt_client mqtt_prefix verbosity
    elster_name elster_type :
  5 <= len (data msg) ->
  lookup_elster_index (elster_index_of (data msg)) !! "Name" = Some elster_name ->
  lookup_elster_index (elster_index_of (data msg)) !! "Type" = Some elster_type ->
  2 <= verbosity ->
  let t := Z.land (byte_at (data msg) 0) 0x0F in
  0 <= t < 16 /\
  (forall t' : Z,
     default "[Unknown]" (type_dict !! t') =
       if t' =? 1 then "[Request]"
       else if t' =? 2 then "[Answer]"
       else if t' =? 9 then "[Change]"
       else "[Unknown]") /\
  exists rest,
    printed (trace (parse msg mqtt_client mqtt_prefix verbosity)) =
    full_line py_str (kind_label (kind_of_type t))
      (can_id_of (data msg)) (elster_index_of (data msg)) elster_name
      (interpret_elster_value (raw_val_of (data msg)) elster_type) elster_type
    :: rest.
Proof.
  intros Hlen Hname Htype Hv t. split; [apply land_0F_range|]. split.
  - intros t'. rewrite type_dict_get. unfold kind_of_type.
    by destruct (t' =? 1), (t' =? 2), (t' =? 9).
  - rewrite parse_telegram_valid by done. cbv zeta.
    rewrite Hname, Htype. unfold trace. cbn [fst].
    rewrite printed_telegram_events. unfold log_lines.
    replace (verbosity >=? 2) with true by lia.
    rewrite type_dict_get. eexists. reflexivity.
Qed.

(** C4. On a frame of five or six bytes the raw value handed to the
    interpreter, and printed in the debug block, is 0; on a frame of seven
    bytes or more it is [(byte 5 << 8) | byte 6]. In both cases the routine
    goes on and ends normally. *)
Theorem raw_value_conditional msg mqtt_client mqtt_prefix verbosity
    elster_name elster_type :
  5 <= len (data msg) ->
  lookup_elster_index (elster_index_of (data msg)) !! "Name" = Some elster_name ->
  lookup_elster_index (elster_index_of (data msg)) !! "Type" = Some elster_type ->
  let raw_val :=
    if len (data msg) <? 7 then 0
    else Z.lor (Z.shiftl (byte_at (data msg) 5) 8) (byte_at (data msg) 6) in
  outcome (parse msg mqtt_client mqtt_prefix verbosity) = inr tt /\
  interpreted (trace (parse msg mqtt_client mqtt_prefix verbosity)) =
    [(raw_val, elster_type)] /\
  (3 <= verbosity ->
   last (printed (trace (parse msg mqtt_client mqtt_prefix verbosity))) =
   Some ("  [DEBUG] raw_val: " +:+ str_int raw_val)).
Proof.
  intros Hlen Hname Htype raw_val.
  assert (raw_val = raw_val_of (data msg)) as ->.
  { unfold raw_val, raw_val_of.
    by destruct (Z.ltb_spec (len (data msg)) 7), (Z.geb_spec (len (data msg)) 7);
      try lia. }
  rewrite parse_telegram_valid by done. cbv zeta.
  rewrite Hname, Htype. unfold trace, outcome. cbn [fst snd].
  rewrite interpreted_telegram_events, printed_telegram_events.
  split; [done|]. split; [done|].
  intros Hv. unfold log_lines, debug_block.
  replace (verbosity >=? 2) with true by lia.
  replace (verbosity >=? 3) with true by lia.
  reflexivity.
Qed.

(** ** Logging *)

(** C7. What a telegram prints, by verbosity. At 2 or more: the full line
    (label, device address in three hexadecimal digits, index in four, name,
    interpreted value and type), for every kind, followed at 3 or more by the
    three lines of the debug block and by nothing else at 2. At 1: the terse
    line when the telegram is an answer, nothing otherwise, and never the
    full line. At 0: nothing. *)
Theorem log_lines_by_verbosity msg mqtt_client mqtt_prefix verbosity
    elster_name elster_type :
  5 <= len (data msg) ->
  lookup_elster_index (elster_index_of (data msg)) !! "Name" = Some elster_name ->
  lookup_elster_index (elster_index_of (data msg)) !! "Type" = Some elster_type ->
  let t := Z.land (byte_at (data msg) 0) 0x0F in
  let can_id := Z.land (byte_at (data msg) 0) 0xF0 * 8 + byte_at (data msg) 1 in
  let index := Z.lor (Z.shiftl (byte_at (data msg) 3) 8) (byte_at (data msg) 4) in
  let value := interpret_elster_value (raw_val_of (data msg)) elster_type in
  let full :=
    kind_label (kind_of_type t) +:+ " CAN-ID: " +:+ format_0X 3 can_id +:+
    " | " +:+ "Elster-Index: 0x" +:+ format_0X 4 index +:+
    " (" +:+ py_str elster_name +:+ ") | " +:+
    "Value: " +:+ py_str value +:+ " | Type: " +:+ py_str elster_type in
  let terse :=
    "Ans 0x" +:+ format_0X 4 index +:+ " -> " +:+ py_str value in
  let debug :=
    [ "  [DEBUG] Raw message: " +:+ Message_str msg;
      "  [DEBUG] data(hex): " +:+ bytes_hex (data msg);
      "  [DEBUG] raw_val: " +:+ str_int (raw_val_of (data msg)) ] in
  let out := printed (trace (parse msg mqtt_client mqtt_prefix verbosity)) in
  (3 <= verbosity -> out = full :: debug) /\
  (verbosity = 2 -> out = [full]) /\
  (verbosity = 1 -> out = if t =? 2 then [terse] else []) /\
  (verbosity = 0 -> out = []).
Proof.
  intros Hlen Hname Htype t can_id index value full terse debug out.
  unfold out. rewrite parse_telegram_valid by done. cbv zeta.
  rewrite Hname, Htype. unfold trace. cbn [fst].
  rewrite printed_telegram_events. unfold log_lines.
  rewrite type_dict_get.
  change (full_line py_str (kind_label (kind_of_type (telegram_type_of (data msg))))
            (can_id_of (data msg)) (elster_index_of (data msg)) elster_name
            (interpret_elster_value (raw_val_of (data msg)) elster_type)
            elster_type) with full.
  change (terse_line py_str (elster_index_of (data msg))
            (interpret_elster_value (raw_val_of (data msg)) elster_type))
    with terse.
  repeat split.
  - intros Hv. replace (verbosity >=? 2) with true by lia.
    by replace (verbosity >=? 3) with true by lia.
  - by intros ->.
  - intros ->. cbn. unfold telegram_type_of. fold t.
    by destruct (t =? 2).
  - by intros ->.
Qed.

(** C8. The display name in the topic of a published answer is the
    [EnglishName] of the table entry when the entry has one and the [Name]
    of the entry when it has none. *)
Theorem display_name_default msg (c : client) mqtt_prefix verbosity
    elster_name elster_type :
  5 <= len (data msg) ->
  lookup_elster_index (elster_index_of (data msg)) !! "Name" = Some elster_name ->
  lookup_elster_index (elster_index_of (data msg)) !! "Type" = Some elster_type ->
  Z.land (byte_at (data msg) 0) 0x0F = 2 ->
  let entry := lookup_elster_index (elster_index_of (data msg)) in
  let payload :=
    py_str (interpret_elster_value (raw_val_of (data msg)) elster_type) in
  let out := published (trace (parse msg (Some c) mqtt_prefix verbosity)) in
  (forall english_name,
     entry !! "EnglishName" = Some english_name ->
     out = [(c, mqtt_prefix +:+ py_str english_name, payload)]) /\
  (entry !! "EnglishName" = None ->
   out = [(c, mqtt_prefix +:+ py_str elster_name, payload)]).
Proof.
  intros Hlen Hname Htype Hans entry payload out.
  unfold out. rewrite parse_telegram_valid by done. cbv zeta.
  rewrite Hname, Htype. unfold trace. cbn [fst].
  rewrite published_telegram_events. unfold publish_calls, telegram_type_of.
  rewrite Hans. cbn. fold entry.
  split.
  - by intros english_name ->.
  - by intros ->.
Qed.

(** ** The device address *)

(** C2, amended. On a frame of at least five bytes the device address,
    printed in the full line, is [address_high * 8 + address_low], where
    [address_high] is byte 0 masked with 0xF0, that is the high nibble left
    in place: a multiple of 16 between 0 and 240. [address_low] is byte 1,
    so the address lies between 0 and 2175. For the frame
    12 05 00 00 64 01 2C it is 133. *)
Theorem device_address_unshifted msg mqtt_client mqtt_prefix verbosity
    elster_name elster_type :
  5 <= len (data msg) ->
  lookup_elster_index (elster_index_of (data msg)) !! "Name" = Some elster_name ->
  lookup_elster_index (elster_index_of (data msg)) !! "Type" = Some elster_type ->
  2 <= verbosity ->
  let address_high := Z.land (byte_at (data msg) 0) 0xF0 in
  let address_low := byte_at (data msg) 1 in
  let can_id := address_high * 8 + address_low in
  (exists rest,
     printed (trace (parse msg mqtt_client mqtt_prefix verbosity)) =
     full_line py_str
       (kind_label (kind_of_type (Z.land (byte_at (data msg) 0) 0x0F)))
       can_id (elster_index_of (data msg)) elster_name
       (interpret_elster_value (raw_val_of (data msg)) elster_type) elster_type
     :: rest) /\
  address_high = 16 * (byte_at (data msg) 0 / 16) /\
  0 <= address_high <= 240 /\
  0 <= address_low <= 255 /\
  0 <= can_id <= 2175 /\
  Z.land (byte_at (data frame_answer) 0) 0xF0 * 8 +
    byte_at (data frame_answer) 1 = 133.
Proof.
  intros Hlen Hname Htype Hv address_high address_low can_id.
  pose proof (byte_at_range (data msg) 0) as H0.
  pose proof (byte_at_range (data msg) 1) as H1.
  pose proof (land_F0_byte_at (data msg) 0) as Hhigh.
  fold address_high in Hhigh.
  assert (0 <= byte_at (data msg) 0 / 16 <= 15) as Hq.
  { split; [apply Z.div_pos; lia|].
    apply Z.lt_succ_r, Z.div_lt_upper_bound; lia. }
  split.
  - rewrite parse_telegram_valid by done. cbv zeta.
    rewrite Hname, Htype. unfold trace. cbn [fst].
    rewrite printed_telegram_events. unfold log_lines.
    replace (verbosity >=? 2) with true by lia.
    rewrite type_dict_get. eexists. reflexivity.
  - repeat split; try reflexivity; unfold can_id, address_low; lia.
Qed.

(** ** Byte 2 of the frame *)

Lemma fields_insert_2 (d : list byte) (b : byte) :
  elster_index_of (<[2%nat:=b]> d) = elster_index_of d /\
  raw_val_of (<[2%nat:=b]> d) = raw_val_of d /\
  telegram_type_of (<[2%nat:=b]> d) = telegram_type_of d /\
  can_id_of (<[2%nat:=b]> d) = can_id_of d.
Proof.
  unfold elster_index_of, raw_val_of, telegram_type_of, can_id_of.
  rewrite len_insert. by rewrite !byte_at_insert_ne by lia.
Qed.

(** Two frames of at least five bytes whose four fields agree: everything
    the routine does is the same, except the two lines of the debug block
    that show the message and the payload. *)
Lemma same_fields_same_events msg1 msg2 mqtt_client mqtt_prefix verbosity :
  5 <= len (data msg1) ->
  5 <= len (data msg2) ->
  elster_index_of (data msg1) = elster_index_of (data msg2) ->
  raw_val_of (data msg1) = raw_val_of (data msg2) ->
  telegram_type_of (data msg1) = telegram_type_of (data msg2) ->
  can_id_of (data msg1) = can_id_of (data msg2) ->
  published (trace (parse msg1 mqtt_client mqtt_prefix verbosity)) =
    published (trace (parse msg2 mqtt_client mqtt_prefix verbosity)) /\
  looked_up (trace (parse msg1 mqtt_client mqtt_prefix verbosity)) =
    looked_up (trace (parse msg2 mqtt_client mqtt_prefix verbosity)) /\
  interpreted (trace (parse msg1 mqtt_client mqtt_prefix verbosity)) =
    interpreted (trace (parse msg2 mqtt_client mqtt_prefix verbosity)) /\
  outcome (parse msg1 mqtt_client mqtt_prefix verbosity) =
    outcome (parse msg2 mqtt_client mqtt_prefix verbosity) /\
  (verbosity < 3 ->
   parse msg1 mqtt_client mqtt_prefix verbosity =
   parse msg2 mqtt_client mqtt_prefix verbosity) /\
  (forall e : exn,
     outcome (parse msg1 mqtt_client mqtt_prefix verbosity) = inl e ->
     parse msg1 mqtt_client mqtt_prefix verbosity =
     parse msg2 mqtt_client mqtt_prefix verbosity) /\
  (3 <= verbosity ->
   outcome (parse msg1 mqtt_client mqtt_prefix verbosity) = inr tt ->
   (exists before after,
      trace (parse msg1 mqtt_client mqtt_prefix verbosity) =
        before ++
        [ Print ("  [DEBUG] Raw message: " +:+ Message_str msg1);
          Print ("  [DEBUG] data(hex): " +:+ bytes_hex (data msg1)) ] ++
        after /\
      trace (parse msg2 mqtt_client mqtt_prefix verbosity) =
        before ++
        [ Print ("  [DEBUG] Raw message: " +:+ Message_str msg2);
          Print ("  [DEBUG] data(hex): " +:+ bytes_hex (data msg2)) ] ++
        after) /\
   (exists full_text raw_text,
      printed (trace (parse msg1 mqtt_client mqtt_prefix verbosity)) =
        [ full_text;
          "  [DEBUG] Raw message: " +:+ Message_str msg1;
          "  [DEBUG] data(hex): " +:+ bytes_hex (data msg1);
          raw_text ] /\
      printed (trace (parse msg2 mqtt_client mqtt_prefix verbosity)) =
        [ full_text;
          "  [DEBUG] Raw message: " +:+ Message_str msg2;
          "  [DEBUG] data(hex): " +:+ bytes_hex (data msg2);
          raw_text ])).
Proof.
  intros Hlen Hlen2 Hidx Hraw Htype Hcan.
  rewrite !parse_telegram_valid by done. cbv zeta.
  rewrite Hidx.
  destruct (_ !! "Name") as [elster_name|];
    [|unfold outcome; cbn [snd]; repeat split; done].
  destruct (_ !! "Type") as [elster_type|];
    [|unfold outcome; cbn [snd]; repeat split; done].
  unfold trace, outcome. cbn [fst snd].
  rewrite !published_telegram_events, !looked_up_telegram_events,
    !interpreted_telegram_events.
  unfold publish_calls. rewrite ?Hidx, ?Hraw, ?Htype.
  do 4 (split; [done|]). split; [|split; [done|]].
  - intros Hv. unfold telegram_events, log_lines, publish_calls.
    rewrite ?Hidx, ?Hraw, ?Htype, ?Hcan.
    by replace (verbosity >=? 3) with false by lia.
  - intros Hv _. split.
    + unfold telegram_events, log_lines, publish_calls, debug_block.
      rewrite ?Hidx, ?Hraw, ?Htype, ?Hcan.
      replace (verbosity >=? 2) with true by lia.
      replace (verbosity >=? 3) with true by lia.
      cbn [map app].
      eexists [_; _; _], _. split; reflexivity.
    + rewrite !printed_telegram_events.
      unfold log_lines, debug_block.
      rewrite ?Hidx, ?Hraw, ?Htype, ?Hcan.
      replace (verbosity >=? 2) with true by lia.
      replace (verbosity >=? 3) with true by lia.
      cbn [app].
      eexists _, _. split; reflexivity.
Qed.

(** C9, amended. Two frames of at least five bytes that differ only in
    byte 2: at every verbosity the routine consults the table with the same
    index, interprets the same raw value, makes the same publish calls and
    ends the same way; at every verbosity below 3, and whenever it raises, it
    performs exactly the same events, so prints the same lines. At 3 or
    more the events differ only in the two lines of the debug block that
    print the raw message and the hex dump of the payload: every event before
    them (among which the full line) and every event after them (among which
    the raw value line) is the same. *)
Theorem byte_2_unread_below_debug msg1 msg2 (b : byte) mqtt_client mqtt_prefix
    verbosity :
  5 <= len (data msg1) ->
  data msg2 = <[2%nat:=b]> (data msg1) ->
  published (trace (parse msg1 mqtt_client mqtt_prefix verbosity)) =
    published (trace (parse msg2 mqtt_client mqtt_prefix verbosity)) /\
  looked_up (trace (parse msg1 mqtt_client mqtt_prefix verbosity)) =
    looked_up (trace (parse msg2 mqtt_client mqtt_prefix verbosity)) /\
  interpreted (trace (parse msg1 mqtt_client mqtt_prefix verbosity)) =
    interpreted (trace (parse msg2 mqtt_client mqtt_prefix verbosity)) /\
  outcome (parse msg1 mqtt_client mqtt_prefix verbosity) =
    outcome (parse msg2 mqtt_client mqtt_prefix verbosity) /\
  (verbosity < 3 ->
   parse msg1 mqtt_client mqtt_prefix verbosity =
   parse msg2 mqtt_client mqtt_prefix verbosity) /\
  (forall e : exn,
     outcome (parse msg1 mqtt_client mqtt_prefix verbosity) = inl e ->
     parse msg1 mqtt_client mqtt_prefix verbosity =
     parse msg2 mqtt_client mqtt_prefix verbosity) /\
  (3 <= verbosity ->
   outcome (parse msg1 mqtt_client mqtt_prefix verbosity) = inr tt ->
   (exists before after,
      trace (parse msg1 mqtt_client mqtt_prefix verbosity) =
        before ++
        [ Print ("  [DEBUG] Raw message: " +:+ Message_str msg1);
          Print ("  [DEBUG] data(hex): " +:+ bytes_hex (data msg1)) ] ++
        after /\
      trace (parse msg2 mqtt_client mqtt_prefix verbosity) =
        before ++
        [ Print ("  [DEBUG] Raw message: " +:+ Message_str msg2);
          Print ("  [DEBUG] data(hex): " +:+ bytes_hex (data msg2)) ] ++
        after) /\
   (exists full_text raw_text,
      printed (trace (parse msg1 mqtt_client mqtt_prefix verbosity)) =
        [ full_text;
          "  [DEBUG] Raw message: " +:+ Message_str msg1;
          "  [DEBUG] data(hex): " +:+ bytes_hex (data msg1);
          raw_text ] /\
      printed (trace (parse msg2 mqtt_client mqtt_prefix verbosity)) =
        [ full_text;
          "  [DEBUG] Raw message: " +:+ Message_str msg2;
          "  [DEBUG] data(hex): " +:+ bytes_hex (data msg2);
          raw_text ])).
Proof.
  intros Hlen Hdata.
  destruct (fields_insert_2 (data msg1) b) as (Hidx & Hraw & Htype & Hcan).
  rewrite <- Hdata in Hidx, Hraw, Htype, Hcan.
  assert (5 <= len (data msg2)) as Hlen2.
  { by rewrite Hdata, len_insert. }
  by apply same_fields_same_events.
Qed.

End Valid.

(** ** The routine on the sample frames *)

Lemma short_frame_skipped_sample :
  len (data frame_short) < 5 /\
  trace (sample_parse frame_short (Some tt) "elster/" 2) =
    [Print "[Invalid] Too few bytes: 0000"] /\
  trace (sample_parse frame_short (Some tt) "elster/" 1) = [].
Proof.
  assert (len (data frame_short) < 5) as Hlen by (unfold len; simpl; lia).
  split; [exact Hlen|]. split.
  - exact (proj1 (proj2 (short_frame_skipped pyval_str sample_Message_str
             sample_lookup sample_interpret frame_short (Some tt) "elster/" 2
             Hlen))).
  - exact (proj1 (proj2 (short_frame_skipped pyval_str sample_Message_str
             sample_lookup sample_interpret frame_short (Some tt) "elster/" 1
             Hlen))).
Defined.

Lemma lookup_index_big_endian_sample :
  5 <= len (data frame_answer) /\
  looked_up (trace (sample_parse frame_answer None "elster/" 0)) = [100].
Proof.
  assert (5 <= len (data frame_answer)) as Hlen by (unfold len; simpl; lia).
  split; [exact Hlen|].
  exact (lookup_index_big_endian pyval_str sample_Message_str sample_lookup
           sample_interpret frame_answer None "elster/" 0 Hlen).
Defined.

Lemma publish_iff_client_and_answer_sample :
  5 <= len (data frame_answer) /\
  outcome (sample_parse frame_answer (Some tt) "elster/" 2) = inr tt /\
  published (trace (sample_parse frame_answer (Some tt) "elster/" 2)) =
    [(tt, "elster/outside_temp", "300")].
Proof.
  assert (5 <= len (data frame_answer)) as Hlen by (unfold len; simpl; lia).
  split; [exact Hlen|].
  pose proof (publish_iff_client_and_answer pyval_str sample_Message_str
                sample_lookup sample_interpret frame_answer (Some tt) "elster/" 2
                (PStr "AUSSENTEMP") (PStr "et_dec_val") Hlen
                ltac:(reflexivity) ltac:(reflexivity)) as (Hout & Hpub & _).
  split; [exact Hout | exact Hpub].
Defined.

Lemma device_address_unshifted_sample :
  5 <= len (data frame_answer) /\
  exists rest,
    printed (trace (sample_parse frame_answer None "elster/" 2)) =
    "[Answer] CAN-ID: 085 | Elster-Index: 0x0064 (AUSSENTEMP) | Value: 300 | Type: et_dec_val"
    :: rest.
Proof.
  assert (5 <= len (data frame_answer)) as Hlen by (unfold len; simpl; lia).
  split; [exact Hlen|].
  exact (proj1 (device_address_unshifted pyval_str sample_Message_str
           sample_lookup sample_interpret frame_answer None "elster/" 2
           (PStr "AUSSENTEMP") (PStr "et_dec_val") Hlen
           ltac:(reflexivity) ltac:(reflexivity) ltac:(lia))).
Defined.

Lemma raw_value_conditional_sample :
  5 <= len (data frame_change) /\
  interpreted (trace (sample_parse frame_change None "elster/" 3)) =
    [(0, PStr "et_default")] /\
  last (printed (trace (sample_parse frame_change None "elster/" 3))) =
    Some "  [DEBUG] raw_val: 0".
Proof.
  assert (5 <= len (data frame_change)) as Hlen by (unfold len; simpl; lia).
  split; [exact Hlen|].
  pose proof (raw_value_conditional (client:=unit) pyval_str sample_Message_str
                sample_lookup sample_interpret frame_change None "elster/" 3
                (PStr "FEHLERMELDUNG") (PStr "et_default") Hlen
                ltac:(reflexivity) ltac:(reflexivity)) as (_ & Hint & Hdbg).
  split; [exact Hint | exact (Hdbg ltac:(lia))].
Defined.

Lemma telegram_kind_total_sample :
  5 <= len (data frame_change) /\
  exists rest,
    printed (trace (sample_parse frame_change None "elster/" 2)) =
    "[Change] CAN-ID: 080 | Elster-Index: 0x0001 (FEHLERMELDUNG) | Value: 0 | Type: et_default"
    :: rest.
Proof.
  assert (5 <= len (data frame_change)) as Hlen by (unfold len; simpl; lia).
  split; [exact Hlen|].
  exact (proj2 (proj2 (telegram_kind_total pyval_str sample_Message_str
           sample_lookup sample_interpret frame_change None "elster/" 2
           (PStr "FEHLERMELDUNG") (PStr "et_default") Hlen
           ltac:(reflexivity) ltac:(reflexivity) ltac:(lia)))).
Defined.

Lemma log_lines_by_verbosity_sample :
  5 <= len (data frame_answer) /\
  printed (trace (sample_parse frame_answer None "elster/" 3)) =
    [ "[Answer] CAN-ID: 085 | Elster-Index: 0x0064 (AUSSENTEMP) | Value: 300 | Type: et_dec_val";
      "  [DEBUG] Raw message: ID: 180 DL: 7";
      "  [DEBUG] data(hex): 1205000064012c";
      "  [DEBUG] raw_val: 300" ] /\
  printed (trace (sample_parse frame_answer None "elster/" 2)) =
    [ "[Answer] CAN-ID: 085 | Elster-Index: 0x0064 (AUSSENTEMP) | Value: 300 | Type: et_dec_val" ] /\
  printed (trace (sample_parse frame_answer None "elster/" 1)) =
    ["Ans 0x0064 -> 300"] /\
  printed (trace (sample_parse frame_answer None "elster/" 0)) = [].
Proof.
  assert (5 <= len (data frame_answer)) as Hlen by (unfold len; simpl; lia).
  split; [exact Hlen|].
  pose proof (fun v =>
                log_lines_by_verbosity (client:=unit) pyval_str
                  sample_Message_str sample_lookup sample_interpret
                  frame_answer None "elster/" v
                  (PStr "AUSSENTEMP") (PStr "et_dec_val") Hlen
                  ltac:(reflexivity) ltac:(reflexivity)) as H.
  split; [exact (proj1 (H 3) ltac:(lia))|].
  split; [exact (proj1 (proj2 (H 2)) eq_refl)|].
  split; [exact (proj1 (proj2 (proj2 (H 1))) eq_refl)|].
  exact (proj2 (proj2 (proj2 (H 0))) eq_refl).
Defined.

Lemma display_name_default_sample :
  5 <= len (data frame_answer) /\
  published (trace (sample_parse frame_answer (Some tt) "elster/" 0)) =
    [(tt, "elster/outside_temp", "300")].
Proof.
  assert (5 <= len (data frame_answer)) as Hlen by (unfold len; simpl; lia).
  split; [exact Hlen|].
  pose proof (display_name_default pyval_str sample_Message_str
                sample_lookup sample_interpret frame_answer tt "elster/" 0
                (PStr "AUSSENTEMP") (PStr "et_dec_val") Hlen
                ltac:(reflexivity) ltac:(reflexivity) ltac:(reflexivity))
    as (Hsome & _).
  exact (Hsome (PStr "outside_temp") eq_refl).
Defined.

Lemma byte_2_unread_below_debug_sample :
  5 <= len (data frame_answer) /\
  data frame_answer' = <[2%nat:=xff]> (data frame_answer) /\
  sample_parse frame_answer (Some tt) "elster/" 2 =
  sample_parse frame_answer' (Some tt) "elster/" 2 /\
  exists full_text raw_text,
    printed (trace (sample_parse frame_answer (Some tt) "elster/" 3)) =
      [ full_text;
        "  [DEBUG] Raw message: ID: 180 DL: 7";
        "  [DEBUG] data(hex): 1205000064012c";
        raw_text ] /\
    printed (trace (sample_parse frame_answer' (Some tt) "elster/" 3)) =
      [ full_text;
        "  [DEBUG] Raw message: ID: 180 DL: 7";
        "  [DEBUG] data(hex): 1205ff0064012c";
        raw_text ].
Proof.
  assert (5 <= len (data frame_answer)) as Hlen by (unfold len; simpl; lia).
  split; [exact Hlen|]. split; [reflexivity|].
  pose proof (fun v =>
                byte_2_unread_below_debug pyval_str sample_Message_str
                  sample_lookup sample_interpret frame_answer frame_answer' xff
                  (Some tt) "elster/" v Hlen eq_refl) as H.
  split.
  - destruct (H 2) as (_ & _ & _ & _ & Heq & _). exact (Heq ltac:(lia)).
  - destruct (H 3) as (_ & _ & _ & _ & _ & _ & Hdump).
    exact (proj2 (Hdump ltac:(lia) eq_refl)).
Defined.

(** ** Where the routine departs from the wording *)

(** C2, as worded, fails on the frame 12 05 00 00 64 01 2C: the routine
    prints the device address 133 (085 in hexadecimal), whereas the high
    nibble taken as a 4-bit number, here 1, times 8 plus byte 1 is 13; the
    part of 133 that comes from byte 0 is 128, beyond 127, and the masked
    byte is 16, beyond 15. *)
Lemma device_address_not_nibble_times_8 :
  5 <= len (data frame_answer) /\
  printed (trace (sample_parse frame_answer None "elster/" 2)) =
    [full_line pyval_str "[Answer]" 133 100
       (PStr "AUSSENTEMP") (PInt 300) (PStr "et_dec_val")] /\
  Z.shiftr (byte_at (data frame_answer) 0) 4 = 1 /\
  spec_device_address (data frame_answer) = 13 /\
  printed (trace (sample_parse frame_answer None "elster/" 2)) <>
    [full_line pyval_str "[Answer]" (spec_device_address (data frame_answer)) 100
       (PStr "AUSSENTEMP") (PInt 300) (PStr "et_dec_val")] /\
  ~ (133 - byte_at (data frame_answer) 1 <= 127) /\
  ~ (Z.land (byte_at (data frame_answer) 0) 0xF0 <= 15).
Proof.
  split; [unfold len; simpl; lia|].
  split; [reflexivity|]. split; [reflexivity|]. split; [reflexivity|].
  split; [vm_compute; discriminate|].
  split; vm_compute; intros H; apply H; reflexivity.
Qed.

(** C9, as worded, fails at verbosity 3: two frames that differ only in
    byte 2 print different debug blocks, because the hex dump of the payload
    shows byte 2. *)
Lemma byte_2_shown_in_debug_block :
  5 <= len (data frame_answer) /\
  arbitration_id frame_answer' = arbitration_id frame_answer /\
  data frame_answer' = <[2%nat:=xff]> (data frame_answer) /\
  printed (trace (sample_parse frame_answer (Some tt) "elster/" 3)) <>
  printed (trace (sample_parse frame_answer' (Some tt) "elster/" 3)).
Proof.
  split; [unfold len; simpl; lia|].
  split; [reflexivity|]. split; [reflexivity|].
  vm_compute. discriminate.
Qed.


(** ** Ranges, prefixes and widths *)

Lemma log2_lt_16 (z : Z) : 0 <= z < 65536 -> Z.log2 z < 16.
Proof.
  intros Hz. destruct (Z.eq_dec z 0) as [->|Hne]; [reflexivity|].
  apply Z.log2_lt_pow2; lia.
Qed.

Lemma lor_shiftl_8_range (a b : Z) :
  0 <= a < 256 -> 0 <= b < 256 -> 0 <= Z.lor (Z.shiftl a 8) b < 65536.
Proof.
  intros Ha Hb. rewrite Z.shiftl_mul_pow2 by lia.
  assert (0 <= a * 2 ^ 8 < 65536) as Hx by lia.
  assert (0 <= Z.lor (a * 2 ^ 8) b) as Hnonneg by (apply Z.lor_nonneg; lia).
  split; [done|].
  destruct (Z.eq_dec (Z.lor (a * 2 ^ 8) b) 0) as [->|Hne]; [lia|].
  change 65536 with (2 ^ 16). apply Z.log2_lt_pow2; [lia|].
  rewrite Z.log2_lor by lia.
  apply Z.max_lub_lt; apply log2_lt_16; lia.
Qed.

Lemma elster_index_of_range (d : list byte) : 0 <= elster_index_of d < 65536.
Proof. apply lor_shiftl_8_range; apply byte_at_range. Qed.

Lemma raw_val_of_range (d : list byte) : 0 <= raw_val_of d < 65536.
Proof.
  unfold raw_val_of. destruct (len d >=? 7); [|lia].
  apply lor_shiftl_8_range; apply byte_at_range.
Qed.

Lemma can_id_of_range (d : list byte) : 0 <= can_id_of d < 4096.
Proof.
  unfold can_id_of.
  pose proof (byte_at_range d 0) as H0. pose proof (byte_at_range d 1) as H1.
  rewrite land_F0_byte_at.
  assert (0 <= byte_at d 0 / 16 <= 15); [|lia].
  split; [apply Z.div_pos; lia|].
  apply Z.lt_succ_r, Z.div_lt_upper_bound; lia.
Qed.

Lemma len_take_7 (d : list byte) : len (take 7 d) = Z.min 7 (len d).
Proof. unfold len. rewrite length_take. lia. Qed.

Lemma byte_at_take_7 (d : list byte) (i : nat) :
  (i < 7)%nat -> byte_at (take 7 d) i = byte_at d i.
Proof. intros Hi. unfold byte_at. by rewrite lookup_take_lt. Qed.

Lemma fields_take_7 (d : list byte) :
  elster_index_of (take 7 d) = elster_index_of d /\
  raw_val_of (take 7 d) = raw_val_of d /\
  telegram_type_of (take 7 d) = telegram_type_of d /\
  can_id_of (take 7 d) = can_id_of d.
Proof.
  unfold elster_index_of, raw_val_of, telegram_type_of, can_id_of.
  rewrite len_take_7, !byte_at_take_7 by lia.
  replace (Z.min 7 (len d) >=? 7) with (len d >=? 7) by lia.
  done.
Qed.

Lemma take_7_eq_cases (d1 d2 : list byte) :
  take 7 d1 = take 7 d2 ->
  d1 = d2 \/ (7 <= len d1 /\ 7 <= len d2).
Proof.
  intros Heq.
  pose proof (len_take_7 d1) as H1. pose proof (len_take_7 d2) as H2.
  rewrite Heq in H1.
  destruct (Z.lt_ge_cases (len d1) 7) as [Hlt|Hge].
  - left. rewrite <- (take_ge d1 7), <- (take_ge d2 7); [done| |];
      unfold len in *; lia.
  - right. lia.
Qed.

Lemma string_length_app (s1 s2 : string) :
  String.length (s1 +:+ s2) = (String.length s1 + String.length s2)%nat.
Proof.
  induction s1 as [|a s1 IH]; [done|].
  change (String a s1 +:+ s2) with (String a (s1 +:+ s2)).
  cbn [String.length]. by rewrite IH.
Qed.

Lemma zeros_length (k : nat) : String.length (zeros k) = k.
Proof. induction k as [|k IH]; [done|]. cbn. by rewrite IH. Qed.

Lemma hex_go_length (fuel : nat) : forall (k : nat) (upper : bool) (n : Z) (acc : string),
  (1 <= k)%nat -> 0 <= n < 16 ^ Z.of_nat k ->
  (String.length (hex_go fuel upper n acc) <= String.length acc + k)%nat.
Proof.
  induction fuel as [|fuel IH]; intros k upper n acc Hk Hn; cbn [hex_go].
  - lia.
  - destruct (n / 16 =? 0) eqn:Hq.
    + cbn [String.length]. lia.
    + assert (16 <= n) as H16.
      { destruct (Z.lt_ge_cases n 16) as [Hlt|]; [|done].
        rewrite Z.div_small in Hq by lia. done. }
      destruct k as [|[|k]]; [lia| |].
      * change (16 ^ Z.of_nat 1) with 16 in Hn. lia.
      * etransitivity; [apply (IH (S k)); [lia|]|cbn [String.length]; lia].
        split; [apply Z.div_pos; lia|].
        apply Z.div_lt_upper_bound; [lia|].
        replace (Z.of_nat (S (S k))) with (Z.succ (Z.of_nat (S k))) in Hn by lia.
        rewrite Z.pow_succ_r in Hn by lia. lia.
Qed.

Lemma format_0X_length (k : nat) (n : Z) :
  (1 <= k)%nat -> 0 <= n < 16 ^ Z.of_nat k ->
  String.length (format_0X k n) = k.
Proof.
  intros Hk Hn. unfold format_0X, zfill, hex_of.
  replace (n <? 0) with false by lia.
  rewrite string_length_app, zeros_length.
  pose proof (hex_go_length (S (Z.to_nat (Z.log2 n))) k true n "" Hk Hn) as Hle.
  cbn [String.length] in Hle. lia.
Qed.

(** ** Further properties of [parse_telegram] *)

Section Further.
Context {pyobj client : Type}.
Variable py_str : pyobj -> string.
Variable Message_str : Message -> string.
Variable lookup_elster_index : Z -> gmap string pyobj.
Variable interpret_elster_value : Z -> pyobj -> pyobj.

#[local] Abbreviation parse :=
  (parse_telegram (client:=client) py_str Message_str
     lookup_elster_index interpret_elster_value).

(** X1. When the routine raises, the exception is a [KeyError] for [Name]
    or for [Type] (never an [IndexError]), the frame has at least five
    bytes, the entry of the table lacks that key, and the lookup is the only
    event: nothing was interpreted, printed or published. *)
Theorem raises_only_key_error msg mqtt_client mqtt_prefix verbosity (e : exn) :
  outcome (parse msg mqtt_client mqtt_prefix verbosity) = inl e ->
  5 <= len (data msg) /\
  trace (parse msg mqtt_client mqtt_prefix verbosity) =
    [CallLookup (elster_index_of (data msg))] /\
  (e = KeyError "Name" /\
   lookup_elster_index (elster_index_of (data msg)) !! "Name" = None
   \/
   e = KeyError "Type" /\
   is_Some (lookup_elster_index (elster_index_of (data msg)) !! "Name") /\
   lookup_elster_index (elster_index_of (data msg)) !! "Type" = None).
Proof.
  destruct (Z.lt_ge_cases (len (data msg)) 5) as [Hshort|Hlong].
  { rewrite parse_telegram_short by done. by destruct (verbosity >=? 2). }
  rewrite parse_telegram_valid by done. cbv zeta.
  destruct (_ !! "Name") as [elster_name|] eqn:Hname.
  - destruct (_ !! "Type") as [elster_type|] eqn:Htype; [done|].
    unfold outcome, trace. cbn [fst snd]. intros [= <-].
    split; [done|]. split; [done|]. right. eauto.
  - unfold outcome, trace. cbn [fst snd]. intros [= <-].
    split; [done|]. split; [done|]. by left.
Qed.

(** X2. The routine returns normally exactly when the frame is shorter than
    five bytes or the entry of the table has both [Name] and [Type]. *)
Theorem returns_iff_short_or_entry_complete msg mqtt_client mqtt_prefix verbosity :
  outcome (parse msg mqtt_client mqtt_prefix verbosity) = inr tt <->
  len (data msg) < 5 \/
  is_Some (lookup_elster_index (elster_index_of (data msg)) !! "Name") /\
  is_Some (lookup_elster_index (elster_index_of (data msg)) !! "Type").
Proof.
  destruct (Z.lt_ge_cases (len (data msg)) 5) as [Hshort|Hlong].
  { rewrite parse_telegram_short by done. unfold outcome. cbn [snd]. tauto. }
  rewrite parse_telegram_valid by done. cbv zeta.
  destruct (_ !! "Name") as [elster_name|];
    [destruct (_ !! "Type") as [elster_type|]|];
    unfold outcome; cbn [snd]; split; try done.
  - intros _. right. eauto.
  - intros [?|[_ [? [=]]]]; lia.
  - intros [?|[[? [=]] _]]; lia.
Qed.

(** X3. The index handed to the table and the raw value handed to the
    interpreter are 16-bit numbers: both lie between 0 and 65535, for every
    frame. *)
Theorem table_arguments_16_bit msg mqtt_client mqtt_prefix verbosity :
  Forall (fun index => 0 <= index <= 65535)
    (looked_up (trace (parse msg mqtt_client mqtt_prefix verbosity))) /\
  Forall (fun call => 0 <= call.1 <= 65535)
    (interpreted (trace (parse msg mqtt_client mqtt_prefix verbosity))).
Proof.
  pose proof (elster_index_of_range (data msg)) as Hidx.
  pose proof (raw_val_of_range (data msg)) as Hraw.
  destruct (Z.lt_ge_cases (len (data msg)) 5) as [Hshort|Hlong].
  { rewrite parse_telegram_short by done. unfold trace. cbn [fst].
    by destruct (verbosity >=? 2). }
  rewrite parse_telegram_valid by done. cbv zeta.
  destruct (_ !! "Name") as [elster_name|];
    [destruct (_ !! "Type") as [elster_type|]|];
    unfold trace; cbn [fst].
  - rewrite looked_up_telegram_events, interpreted_telegram_events.
    split; repeat constructor; cbn; lia.
  - split; repeat constructor; lia.
  - split; repeat constructor; lia.
Qed.

(** X4. Bytes of the payload beyond the seventh, and the identifier of the
    message, reach nothing but the debug dump. Two messages whose payloads
    agree on the first seven bytes cause the same lookup, the same
    interpretation, the same publish calls and the same outcome at every
    verbosity; they cause exactly the same events at every verbosity below
    3, when the frame is shorter than five bytes and when the routine
    raises. At verbosity 3 or more the events differ only in the two lines
    of the debug block that print the message and the hex dump of the
    payload: the events before and after these two lines, and the two other
    printed lines, are the same. *)
Theorem only_first_seven_bytes_read msg1 msg2 mqtt_client mqtt_prefix verbosity :
  take 7 (data msg1) = take 7 (data msg2) ->
  published (trace (parse msg1 mqtt_client mqtt_prefix verbosity)) =
    published (trace (parse msg2 mqtt_client mqtt_prefix verbosity)) /\
  looked_up (trace (parse msg1 mqtt_client mqtt_prefix verbosity)) =
    looked_up (trace (parse msg2 mqtt_client mqtt_prefix verbosity)) /\
  interpreted (trace (parse msg1 mqtt_client mqtt_prefix verbosity)) =
    interpreted (trace (parse msg2 mqtt_client mqtt_prefix verbosity)) /\
  outcome (parse msg1 mqtt_client mqtt_prefix verbosity) =
    outcome (parse msg2 mqtt_client mqtt_prefix verbosity) /\
  (verbosity < 3 ->
   parse msg1 mqtt_client mqtt_prefix verbosity =
   parse msg2 mqtt_client mqtt_prefix verbosity) /\
  (len (data msg1) < 5 ->
   parse msg1 mqtt_client mqtt_prefix verbosity =
   parse msg2 mqtt_client mqtt_prefix verbosity) /\
  (forall e : exn,
     outcome (parse msg1 mqtt_client mqtt_prefix verbosity) = inl e ->
     parse msg1 mqtt_client mqtt_prefix verbosity =
     parse msg2 mqtt_client mqtt_prefix verbosity) /\
  (3 <= verbosity ->
   5 <= len (data msg1) ->
   outcome (parse msg1 mqtt_client mqtt_prefix verbosity) = inr tt ->
   (exists before after,
      trace (parse msg1 mqtt_client mqtt_prefix verbosity) =
        before ++
        [ Print ("  [DEBUG] Raw message: " +:+ Message_str msg1);
          Print ("  [DEBUG] data(hex): " +:+ bytes_hex (data msg1)) ] ++
        after /\
      trace (parse msg2 mqtt_client mqtt_prefix verbosity) =
        before ++
        [ Print ("  [DEBUG] Raw message: " +:+ Message_str msg2);
          Print ("  [DEBUG] data(hex): " +:+ bytes_hex (data msg2)) ] ++
        after) /\
   (exists full_text raw_text,
      printed (trace (parse msg1 mqtt_client mqtt_prefix verbosity)) =
        [ full_text;
          "  [DEBUG] Raw message: " +:+ Message_str msg1;
          "  [DEBUG] data(hex): " +:+ bytes_hex (data msg1);
          raw_text ] /\
      printed (trace (parse msg2 mqtt_client mqtt_prefix verbosity)) =
        [ full_text;
          "  [DEBUG] Raw message: " +:+ Message_str msg2;
          "  [DEBUG] data(hex): " +:+ bytes_hex (data msg2);
          raw_text ])).
Proof.
  intros Htake.
  assert (elster_index_of (data msg1) = elster_index_of (data msg2) /\
          raw_val_of (data msg1) = raw_val_of (data msg2) /\
          telegram_type_of (data msg1) = telegram_type_of (data msg2) /\
          can_id_of (data msg1) = can_id_of (data msg2))
    as (Hidx & Hraw & Htype & Hcan).
  { destruct (fields_take_7 (data msg1)) as (<- & <- & <- & <-).
    destruct (fields_take_7 (data msg2)) as (<- & <- & <- & <-).
    by rewrite Htake. }
  destruct (Z.lt_ge_cases (len (data msg1)) 5) as [Hshort|Hlong].
  - destruct (take_7_eq_cases _ _ Htake) as [Heq|[? ?]]; [|lia].
    assert (parse msg1 mqtt_client mqtt_prefix verbosity =
            parse msg2 mqtt_client mqtt_prefix verbosity) as Hsame.
    { rewrite !parse_telegram_short by (by rewrite <- ?Heq). by rewrite Heq. }
    rewrite Hsame. do 7 (split; [done|]). intros _ ?. lia.
  - assert (5 <= len (data msg2)) as Hlong2.
    { destruct (take_7_eq_cases _ _ Htake) as [Heq|[? ?]]; [|lia].
      by rewrite <- Heq. }
    destruct (same_fields_same_events py_str Message_str lookup_elster_index
                interpret_elster_value msg1 msg2 mqtt_client mqtt_prefix
                verbosity Hlong Hlong2 Hidx Hraw Htype Hcan)
      as (Hpub & Hlook & Hint & Hout & Hlow & Hexn & Hdump).
    do 5 (split; [done|]). split; [intros ?; lia|]. split; [done|].
    intros Hv _. by apply Hdump.
Qed.

(** X5. The events of one call come in a fixed order: the lookup, then the
    interpretation, then the printed lines, and the publish call last. The
    trace is the concatenation of its four observations in that order. *)
Theorem events_in_order msg mqtt_client mqtt_prefix verbosity :
  trace (parse msg mqtt_client mqtt_prefix verbosity) =
  map CallLookup
    (looked_up (trace (parse msg mqtt_client mqtt_prefix verbosity))) ++
  map (fun call => CallInterpret call.1 call.2)
    (interpreted (trace (parse msg mqtt_client mqtt_prefix verbosity))) ++
  map Print
    (printed (trace (parse msg mqtt_client mqtt_prefix verbosity))) ++
  map (fun call => Publish call.1.1 call.1.2 call.2)
    (published (trace (parse msg mqtt_client mqtt_prefix verbosity))).
Proof.
  destruct (Z.lt_ge_cases (len (data msg)) 5) as [Hshort|Hlong].
  { rewrite parse_telegram_short by done. unfold trace. cbn [fst].
    by destruct (verbosity >=? 2). }
  rewrite parse_telegram_valid by done. cbv zeta.
  destruct (_ !! "Name") as [elster_name|]; [|done].
  destruct (_ !! "Type") as [elster_type|]; [|done].
  unfold trace. cbn [fst].
  rewrite looked_up_telegram_events, interpreted_telegram_events,
    printed_telegram_events, published_telegram_events.
  unfold telegram_events. cbn [map app fst snd].
  do 3 f_equal. apply map_ext. by intros [[c topic] payload].
Qed.

(** X6. The text of the full line has fixed-width numbers. The line
    printed at verbosity 2 or more is the label, [ CAN-ID: ], the device
    address in upper-case hexadecimal, [ | Elster-Index: 0x], the index in
    upper-case hexadecimal, then the name, the value and the type; the text
    of the address always has exactly three characters and the text of the
    index exactly four. *)
Theorem full_line_fixed_width msg mqtt_client mqtt_prefix verbosity
    elster_name elster_type :
  5 <= len (data msg) ->
  lookup_elster_index (elster_index_of (data msg)) !! "Name" = Some elster_name ->
  lookup_elster_index (elster_index_of (data msg)) !! "Type" = Some elster_type ->
  2 <= verbosity ->
  let can_id := Z.land (byte_at (data msg) 0) 0xF0 * 8 + byte_at (data msg) 1 in
  let index := Z.lor (Z.shiftl (byte_at (data msg) 3) 8) (byte_at (data msg) 4) in
  (exists rest,
     printed (trace (parse msg mqtt_client mqtt_prefix verbosity)) =
     (kind_label (kind_of_type (Z.land (byte_at (data msg) 0) 0x0F)) +:+
      " CAN-ID: " +:+ format_0X 3 can_id +:+ " | " +:+
      "Elster-Index: 0x" +:+ format_0X 4 index +:+
      " (" +:+ py_str elster_name +:+ ") | " +:+
      "Value: " +:+
      py_str (interpret_elster_value (raw_val_of (data msg)) elster_type) +:+
      " | Type: " +:+ py_str elster_type)
     :: rest) /\
  String.length (format_0X 3 can_id) = 3%nat /\
  String.length (format_0X 4 index) = 4%nat.
Proof.
  intros Hlen Hname Htype Hv can_id index.
  pose proof (can_id_of_range (data msg)) as Hcan.
  pose proof (elster_index_of_range (data msg)) as Hidx.
  split; [|split; apply format_0X_length; try lia; done].
  rewrite parse_telegram_valid by done. cbv zeta.
  rewrite Hname, Htype. unfold trace. cbn [fst].
  rewrite printed_telegram_events. unfold log_lines.
  replace (verbosity >=? 2) with true by lia.
  rewrite type_dict_get. eexists. reflexivity.
Qed.

End Further.

(** ** A run of [main] *)

Section Run.
Context {pyobj client : Type}.
Variable py_str : pyobj -> string.
Variable Message_str : Message -> string.
Variable lookup_elster_index : Z -> gmap string pyobj.
Variable interpret_elster_value : Z -> pyobj -> pyobj.

#[local] Abbreviation parse :=
  (parse_telegram (client:=client) py_str Message_str
     lookup_elster_index interpret_elster_value).
#[local] Abbreviation loop :=
  (recv_loop (client:=client) py_str Message_str
     lookup_elster_index interpret_elster_value).
#[local] Abbreviation run :=
  (main (client:=client) py_str Message_str
     lookup_elster_index interpret_elster_value).

Lemma recv_loop_nil mqtt_client args stop :
  loop mqtt_client args [] stop = ([Recv 1], inl (failure_of stop)).
Proof. reflexivity. Qed.

Lemma recv_loop_timeout mqtt_client args rest stop :
  loop mqtt_client args (None :: rest) stop =
  (Recv 1 :: fst (loop mqtt_client args rest stop),
   snd (loop mqtt_client args rest stop)).
Proof.
  cbn [recv_loop]. unfold rbind, call.
  by destruct (loop mqtt_client args rest stop).
Qed.

Lemma recv_loop_message mqtt_client args msg rest stop :
  loop mqtt_client args (Some msg :: rest) stop =
  match outcome (parse msg mqtt_client (mqtt_prefix args) (verbosity args)) with
  | inl e =>
      (Recv 1 ::
       map Telegram
         (trace (parse msg mqtt_client (mqtt_prefix args) (verbosity args))),
       inl (Uncaught e))
  | inr _ =>
      (Recv 1 ::
       map Telegram
         (trace (parse msg mqtt_client (mqtt_prefix args) (verbosity args))) ++
       fst (loop mqtt_client args rest stop),
       snd (loop mqtt_client args rest stop))
  end.
Proof.
  cbn [recv_loop]. unfold rbind, call, call_parse.
  destruct (outcome _) as [e|[]]; [done|].
  by destruct (loop mqtt_client args rest stop).
Qed.

(** The loop never returns: it always ends by an exception. *)
Lemma recv_loop_raises mqtt_client args results stop :
  exists f, snd (loop mqtt_client args results stop) = inl f.
Proof.
  induction results as [|[msg|] rest IH].
  - rewrite recv_loop_nil. eauto.
  - rewrite recv_loop_message. destruct (outcome _) as [e|[]]; cbn [snd]; eauto.
  - by rewrite recv_loop_timeout.
Qed.

Lemma main_unfold args c env :
  run args c env =
  match connection_of env with
  | Aborted =>
      (startup_events args ++ credential_events args c ++
       connect_events args c env,
       inl KeyboardInterrupt)
  | _ =>
      let body :=
        except_KeyboardInterrupt
          (rbind (call (BusOpen "can0" "socketcan") (bus_result env))
             (fun _ => loop (client_after_connect c env) args (recvs env)
                         (recv_stop env)))
          (interrupted_events args, inr tt) in
      (startup_events args ++ credential_events args c ++
       connect_events args c env ++ fst body ++
       exit_events args (client_after_connect c env),
       snd body)
  end.
Proof.
  assert ((if verbosity args >=? 1
           then mprint (nl +:+ "Interrupted by user (Ctrl+C).")
           else rret tt) =
          (interrupted_events (pyobj:=pyobj) (client:=client) args, inr tt))
    as Hhandler.
  { unfold interrupted_events. by destruct (verbosity args >=? 1). }
  unfold main. rewrite Hhandler. clear Hhandler.
  unfold client_after_connect, startup_events, credential_events,
    connect_events, exit_events, finally.
  unfold connection_of.
  destruct (verbosity args >=? 1),
    (truthy (mqtt_user args) && truthy (mqtt_pass args)),
    (connect_result env) as [|[|text1]],
    (loop_start_result env) as [|[|text2]];
    cbn -[recv_loop str_mul String.append except_KeyboardInterrupt];
    try reflexivity;
    match goal with
    | |- context [except_KeyboardInterrupt ?b ?h] =>
        generalize (except_KeyboardInterrupt b h)
    end;
    intros [t r]; cbn -[str_mul String.append];
    rewrite <- ?app_assoc; reflexivity.
Qed.

Lemma bus_phase mqtt_client args env :
  except_KeyboardInterrupt
    (rbind (call (BusOpen "can0" "socketcan") (bus_result env))
       (fun _ => loop mqtt_client args (recvs env) (recv_stop env)))
    (interrupted_events args, inr tt) =
  match bus_result env with
  | Raises Interrupt =>
      (BusOpen "can0" "socketcan" :: interrupted_events args, inr tt)
  | Raises (Fails text) => ([BusOpen "can0" "socketcan"], inl (Error text))
  | Returns =>
      match snd (loop mqtt_client args (recvs env) (recv_stop env)) with
      | inl KeyboardInterrupt =>
          (BusOpen "can0" "socketcan" ::
           fst (loop mqtt_client args (recvs env) (recv_stop env)) ++
           interrupted_events args,
           inr tt)
      | r =>
          (BusOpen "can0" "socketcan" ::
           fst (loop mqtt_client args (recvs env) (recv_stop env)),
           r)
      end
  end.
Proof.
  unfold except_KeyboardInterrupt, rbind, call.
  destruct (bus_result env) as [|[|text]]; cbn -[recv_loop].
  - destruct (loop _ _ _ _) as [t [[| |]|[]]]; cbn; reflexivity.
  - reflexivity.
  - reflexivity.
Qed.

(** Observations of a trace of [main]. *)

Lemma telegram_part_app (t1 t2 : list (main_event pyobj client)) :
  telegram_part (t1 ++ t2) = telegram_part t1 ++ telegram_part t2.
Proof. apply omap_app. Qed.

Lemma telegram_part_Telegram (t : list (event pyobj client)) :
  telegram_part (map Telegram t) = t.
Proof. unfold telegram_part. by apply omap_map_Some. Qed.

Lemma setup_part_app (t1 t2 : list (main_event pyobj client)) :
  setup_part (t1 ++ t2) = setup_part t1 ++ setup_part t2.
Proof. apply omap_app. Qed.

Lemma setup_part_Telegram (t : list (event pyobj client)) :
  setup_part (map Telegram t) = [].
Proof. unfold setup_part. by apply omap_map_None. Qed.

Lemma printed_app (t1 t2 : list (event pyobj client)) :
  printed (t1 ++ t2) = printed t1 ++ printed t2.
Proof. apply omap_app. Qed.

Lemma published_app (t1 t2 : list (event pyobj client)) :
  published (t1 ++ t2) = published t1 ++ published t2.
Proof. apply omap_app. Qed.

(** Two facts about one call of [parse_telegram]. *)


Lemma printed_at_verbosity_0 msg mqtt_client mqtt_prefix verbosity :
  verbosity <= 0 ->
  printed (trace (parse msg mqtt_client mqtt_prefix verbosity)) = [].
Proof.
  intros Hv.
  destruct (Z.lt_ge_cases (len (data msg)) 5) as [Hshort|Hlong].
  { rewrite parse_telegram_short by done. unfold trace. cbn [fst].
    by replace (verbosity >=? 2) with false by lia. }
  rewrite parse_telegram_valid by done. cbv zeta.
  destruct (_ !! "Name") as [elster_name|]; [|done].
  destruct (_ !! "Type") as [elster_type|]; [|done].
  unfold trace. cbn [fst]. rewrite printed_telegram_events. unfold log_lines.
  replace (verbosity >=? 2) with false by lia.
  replace (verbosity >=? 3) with false by lia.
  replace (verbosity =? 1) with false by lia.
  done.
Qed.

(** The loop, by induction on the results of [recv]. *)

Lemma telegram_part_Recv (n : Z) (t : list (main_event pyobj client)) :
  telegram_part (Recv n :: t) = telegram_part t.
Proof. reflexivity. Qed.

Lemma setup_part_Recv (n : Z) (t : list (main_event pyobj client)) :
  setup_part (Recv n :: t) = setup_part t.
Proof. reflexivity. Qed.

Lemma loop_setup_part mqtt_client args results stop :
  setup_part (fst (loop mqtt_client args results stop)) = [].
Proof.
  induction results as [|[msg|] rest IH].
  - done.
  - rewrite recv_loop_message. destruct (outcome _) as [e|[]]; cbn [fst];
      rewrite setup_part_Recv, ?setup_part_app, setup_part_Telegram, ?IH; done.
  - rewrite recv_loop_timeout. cbn [fst]. by rewrite setup_part_Recv.
Qed.


Lemma loop_printed_at_verbosity_0 mqtt_client args results stop :
  verbosity args <= 0 ->
  printed (telegram_part (fst (loop mqtt_client args results stop))) = [].
Proof.
  intros Hv. induction results as [|[msg|] rest IH].
  - done.
  - rewrite recv_loop_message. destruct (outcome _) as [e|[]]; cbn [fst];
      rewrite telegram_part_Recv, ?telegram_part_app, telegram_part_Telegram,
        ?printed_app, ?IH, printed_at_verbosity_0 by done; done.
  - rewrite recv_loop_timeout. cbn [fst]. by rewrite telegram_part_Recv.
Qed.

Lemma loop_timeouts mqtt_client args results stop :
  telegram_part (fst (loop mqtt_client args results stop)) =
    telegram_part
      (fst (loop mqtt_client args (map Some (messages results)) stop)) /\
  snd (loop mqtt_client args results stop) =
    snd (loop mqtt_client args (map Some (messages results)) stop).
Proof.
  induction results as [|[msg|] rest [IHt IHr]].
  - done.
  - change (messages (Some msg :: rest)) with (msg :: messages rest).
    cbn [map]. rewrite !recv_loop_message.
    destruct (outcome _) as [e|[]]; cbn [fst snd]; [done|].
    split; [|done].
    rewrite !telegram_part_Recv, !telegram_part_app. by rewrite IHt.
  - change (messages (None :: rest)) with (messages rest).
    rewrite recv_loop_timeout. cbn [fst snd]. split; [|done].
    by rewrite telegram_part_Recv.
Qed.

Lemma loop_all_return mqtt_client args results stop :
  Forall (fun msg =>
            outcome (parse msg mqtt_client (mqtt_prefix args) (verbosity args))
            = inr tt) (messages results) ->
  telegram_part (fst (loop mqtt_client args results stop)) =
    flat_map (fun msg =>
                trace (parse msg mqtt_client (mqtt_prefix args) (verbosity args)))
      (messages results) /\
  snd (loop mqtt_client args results stop) = inl (failure_of stop).
Proof.
  induction results as [|[msg|] rest IH]; intros Hok.
  - done.
  - change (messages (Some msg :: rest)) with (msg :: messages rest) in *.
    apply Forall_cons in Hok as [Hmsg Hrest].
    destruct (IH Hrest) as [IHt IHr].
    rewrite recv_loop_message, Hmsg. cbn [fst snd flat_map].
    split; [|done].
    rewrite telegram_part_Recv, telegram_part_app, telegram_part_Telegram.
    by rewrite IHt.
  - change (messages (None :: rest)) with (messages rest) in *.
    destruct (IH Hok) as [IHt IHr].
    rewrite recv_loop_timeout. cbn [fst snd]. split; [|done].
    by rewrite telegram_part_Recv.
Qed.

Lemma loop_stops_at_failure mqtt_client args pre msg post stop (e : exn) :
  Forall (fun msg =>
            outcome (parse msg mqtt_client (mqtt_prefix args) (verbosity args))
            = inr tt) (messages pre) ->
  outcome (parse msg mqtt_client (mqtt_prefix args) (verbosity args)) = inl e ->
  loop mqtt_client args (pre ++ Some msg :: post) stop =
  (fst (loop mqtt_client args pre stop) ++
   map Telegram
     (trace (parse msg mqtt_client (mqtt_prefix args) (verbosity args))),
   inl (Uncaught e)).
Proof.
  intros Hok Hmsg. induction pre as [|[m|] rest IH].
  - cbn [app]. rewrite recv_loop_message, Hmsg. done.
  - change (messages (Some m :: rest)) with (m :: messages rest) in *.
    apply Forall_cons in Hok as [Hm Hrest].
    cbn [app]. rewrite !recv_loop_message, Hm, (IH Hrest). cbn [fst snd app].
    by rewrite app_assoc.
  - change (messages (None :: rest)) with (messages rest) in *.
    cbn [app]. rewrite !recv_loop_timeout, (IH Hok). done.
Qed.

(** The three readings of a whole run. *)

Lemma telegram_part_credentials args (c : client) :
  telegram_part (pyobj:=pyobj) (credential_events args c) = [].
Proof. unfold credential_events. by destruct (_ && _). Qed.

Lemma telegram_part_BusOpen channel bustype (t : list (main_event pyobj client)) :
  telegram_part (BusOpen channel bustype :: t) = telegram_part t.
Proof. reflexivity. Qed.

Lemma telegram_part_run args c env :
  telegram_part (run args c env).1 =
  telegram_part (startup_events args) ++
  telegram_part (connect_events args c env) ++
  match connection_of env with
  | Aborted => []
  | _ =>
      match bus_result env with
      | Returns =>
          telegram_part
            (loop (client_after_connect c env) args (recvs env)
               (recv_stop env)).1 ++
          match (loop (client_after_connect c env) args (recvs env)
                   (recv_stop env)).2 with
          | inl KeyboardInterrupt => telegram_part (interrupted_events args)
          | _ => []
          end
      | Raises Interrupt => telegram_part (interrupted_events args)
      | Raises (Fails _) => []
      end ++
      telegram_part (exit_events args (client_after_connect c env))
  end.
Proof.
  rewrite main_unfold.
  destruct (connection_of env) eqn:Hconn; cbv zeta; cbn [fst];
    rewrite !telegram_part_app, telegram_part_credentials; cbn [app];
    try (by rewrite app_nil_r);
    rewrite bus_phase;
    (destruct (bus_result env) as [|[|text']];
     [destruct (loop _ _ _ _) as [t [[| |]|[]]]| |]);
    cbn [fst snd];
    rewrite ?telegram_part_BusOpen, ?telegram_part_app, ?app_nil_r;
    reflexivity.
Qed.

Lemma setup_part_BusOpen channel bustype (t : list (main_event pyobj client)) :
  setup_part (BusOpen channel bustype :: t) =
  BusOpen channel bustype :: setup_part t.
Proof. reflexivity. Qed.

Lemma setup_part_run args c env :
  setup_part (run args c env).1 =
  credential_events args c ++
  [Connect c (mqtt_server args) (mqtt_port args) 60] ++
  match connect_result env with
  | Returns => [LoopStart c]
  | Raises _ => []
  end ++
  match connection_of env with
  | Connected => [BusOpen "can0" "socketcan"; LoopStop c; Disconnect c]
  | Unavailable _ => [BusOpen "can0" "socketcan"]
  | Aborted => []
  end.
Proof.
  assert (setup_part (pyobj:=pyobj) (client:=client) (startup_events args) = [])
    as Hstart.
  { unfold startup_events. by destruct (verbosity args >=? 1). }
  assert (setup_part (pyobj:=pyobj) (credential_events args c) =
          credential_events args c) as Hcred.
  { unfold credential_events. by destruct (_ && _). }
  assert (setup_part (pyobj:=pyobj) (client:=client) (interrupted_events args)
          = []) as Hint.
  { unfold interrupted_events. by destruct (verbosity args >=? 1). }
  assert (forall mqtt_client results stop,
            setup_part
              (except_KeyboardInterrupt
                 (rbind (call (BusOpen "can0" "socketcan") (bus_result env))
                    (fun _ => loop mqtt_client args results stop))
                 (interrupted_events args, inr tt)).1 =
            [BusOpen "can0" "socketcan"]) as Hbody.
  { intros mqtt_client results stop.
    pose proof (loop_setup_part mqtt_client args results stop) as Hloop.
    unfold except_KeyboardInterrupt, rbind, call.
    destruct (bus_result env) as [|[|text']]; cbn -[recv_loop setup_part].
    - destruct (loop _ _ _ _) as [t [[| |]|[]]]; cbn [fst snd app] in *;
        rewrite setup_part_BusOpen, ?app_nil_r, ?setup_part_app, ?Hint, ?Hloop;
        reflexivity.
    - by rewrite setup_part_BusOpen, Hint.
    - reflexivity. }
  rewrite main_unfold. unfold client_after_connect.
  destruct (connection_of env) eqn:Hconn; cbv zeta; cbn [fst];
    rewrite !setup_part_app, ?Hbody, Hstart, Hcred; cbn [app];
    f_equal; unfold connect_events, exit_events, connection_of in *;
    destruct (verbosity args >=? 1), (connect_result env) as [|[|text1]],
      (loop_start_result env) as [|[|text2]];
    try discriminate; reflexivity.
Qed.

Lemma outcome_run args c env :
  (run args c env).2 =
  match connection_of env with
  | Aborted => inl KeyboardInterrupt
  | _ =>
      match bus_result env with
      | Raises Interrupt => inr tt
      | Raises (Fails text) => inl (Error text)
      | Returns =>
          match (loop (client_after_connect c env) args (recvs env)
                   (recv_stop env)).2 with
          | inl KeyboardInterrupt => inr tt
          | r => r
          end
      end
  end.
Proof.
  rewrite main_unfold.
  destruct (connection_of env) eqn:Hconn; cbv zeta; cbn [snd];
    try reflexivity;
    rewrite bus_phase;
    (destruct (bus_result env) as [|[|text']];
     [destruct (loop _ _ _ _) as [t [[| |]|[]]]| |]);
    reflexivity.
Qed.

Lemma printed_startup_silent args :
  verbosity args <= 0 ->
  printed (telegram_part (pyobj:=pyobj) (client:=client) (startup_events args))
  = [].
Proof.
  intros Hv. unfold startup_events.
  by replace (verbosity args >=? 1) with false by lia.
Qed.

Lemma published_startup args :
  published (telegram_part (pyobj:=pyobj) (client:=client) (startup_events args))
  = [].
Proof. unfold startup_events. by destruct (verbosity args >=? 1). Qed.

Lemma published_connect args (c : client) env :
  published (telegram_part (pyobj:=pyobj) (connect_events args c env)) = [].
Proof.
  unfold connect_events.
  by destruct (connect_result env), (connection_of env),
    (verbosity args >=? 1).
Qed.

Lemma published_interrupted args :
  published
    (telegram_part (pyobj:=pyobj) (client:=client) (interrupted_events args))
  = [].
Proof. unfold interrupted_events. by destruct (verbosity args >=? 1). Qed.

Lemma published_exit args (mqtt_client : option client) :
  published (telegram_part (pyobj:=pyobj) (exit_events args mqtt_client)) = [].
Proof.
  unfold exit_events. by destruct (verbosity args >=? 1), mqtt_client.
Qed.

(** ** Properties of a run *)

(** X7. Leaving aside [publish] and [recv], the calls that a run makes on
    the MQTT client and on the bus form a sequence fixed by the arguments and
    by how the connection went; it does not depend on the frames received,
    on the table or on the verbosity. The sequence is: [username_pw_set]
    when both a user and a password are given and non-empty, [connect],
    [loop_start] when [connect] returned, and then, unless Ctrl+C arrived
    while connecting, the opening of the bus, followed at exit by
    [loop_stop] and [disconnect] exactly when [connect] and [loop_start]
    both returned. *)
Theorem client_and_bus_calls args c env :
  setup_part (run args c env).1 =
  (if truthy (mqtt_user args) && truthy (mqtt_pass args)
   then [UsernamePwSet c (mqtt_user args) (mqtt_pass args)]
   else []) ++
  [Connect c (mqtt_server args) (mqtt_port args) 60] ++
  match connect_result env with
  | Returns => [LoopStart c]
  | Raises _ => []
  end ++
  match connection_of env with
  | Connected => [BusOpen "can0" "socketcan"; LoopStop c; Disconnect c]
  | Unavailable _ => [BusOpen "can0" "socketcan"]
  | Aborted => []
  end.
Proof. by rewrite setup_part_run. Qed.


(** X9. Once connected, the client is always stopped and disconnected at
    exit: whatever the bus does, whatever is received and however the loop
    ends, the run finishes with the exit line (at verbosity 1 or more)
    followed by [loop_stop] and [disconnect]. *)
Theorem cleanup_at_exit args c env :
  connection_of env = Connected ->
  exists before,
    (run args c env).1 =
    before ++
    (if verbosity args >=? 1 then [Telegram (Print (nl +:+ "Exiting."))]
     else []) ++
    [LoopStop c; Disconnect c].
Proof.
  intros Hconn. rewrite main_unfold. unfold client_after_connect.
  rewrite Hconn. cbv zeta. cbn [fst]. unfold exit_events.
  eexists. rewrite !app_assoc. reflexivity.
Qed.

(** X10. Timeouts of [recv] leave no mark besides the [recv] calls
    themselves: two runs that receive the same messages, with timeouts
    placed differently, print and publish the same, make the same client and
    bus calls and end the same way. *)
Theorem timeouts_skipped args c connect_r loop_start_r bus_r results results'
    stop :
  messages results = messages results' ->
  telegram_part
    (run args c (mkEnv connect_r loop_start_r bus_r results stop)).1 =
  telegram_part
    (run args c (mkEnv connect_r loop_start_r bus_r results' stop)).1 /\
  setup_part
    (run args c (mkEnv connect_r loop_start_r bus_r results stop)).1 =
  setup_part
    (run args c (mkEnv connect_r loop_start_r bus_r results' stop)).1 /\
  (run args c (mkEnv connect_r loop_start_r bus_r results stop)).2 =
  (run args c (mkEnv connect_r loop_start_r bus_r results' stop)).2.
Proof.
  intros Hmsgs.
  rewrite !telegram_part_run, !setup_part_run, !outcome_run.
  unfold client_after_connect, connection_of, connect_events, connection_of.
  cbn [connect_result loop_start_result bus_result recvs recv_stop].
  split; [|split; [done|]].
  - f_equal. f_equal.
    destruct connect_r as [|[|text1]], loop_start_r as [|[|text2]];
      try done;
      f_equal;
      destruct bus_r as [|[|text3]]; try done;
      match goal with
      | |- context [loop ?mc args results stop] =>
          destruct (loop_timeouts mc args results stop) as [-> ->];
          destruct (loop_timeouts mc args results' stop) as [-> ->]
      end;
      by rewrite Hmsgs.
  - destruct connect_r as [|[|text1]], loop_start_r as [|[|text2]];
      try done;
      destruct bus_r as [|[|text3]]; try done;
      match goal with
      | |- context [loop ?mc args results stop] =>
          destruct (loop_timeouts mc args results stop) as [_ ->];
          destruct (loop_timeouts mc args results' stop) as [_ ->]
      end;
      by rewrite Hmsgs.
Qed.

(** X11. In a connected run in which every received frame is parsed
    without an exception, the publish calls of the run are those of the
    frames, in the order of arrival; timeouts and too-short frames add
    nothing. *)
Theorem publishes_in_arrival_order args c env :
  connection_of env = Connected ->
  bus_result env = Returns ->
  Forall (fun msg =>
            outcome (parse msg (Some c) (mqtt_prefix args) (verbosity args))
            = inr tt) (messages (recvs env)) ->
  published (telegram_part (run args c env).1) =
  flat_map (fun msg =>
              published
                (trace (parse msg (Some c) (mqtt_prefix args) (verbosity args))))
    (messages (recvs env)).
Proof.
  intros Hconn Hbus Hok. rewrite telegram_part_run.
  unfold client_after_connect. rewrite Hconn, Hbus.
  destruct (loop_all_return (Some c) args (recvs env) (recv_stop env) Hok)
    as [-> ->].
  rewrite !published_app, published_startup, published_connect,
    published_exit, app_nil_r. cbn [app].
  assert (published
            match inl (failure_of (recv_stop env)) : failure + unit with
            | inl KeyboardInterrupt =>
                telegram_part (pyobj:=pyobj) (client:=client)
                  (interrupted_events args)
            | _ => []
            end = []) as ->.
  { destruct (recv_stop env); [apply published_interrupted|done]. }
  rewrite app_nil_r.
  induction (messages (recvs env)) as [|msg msgs IH]; [done|].
  cbn [flat_map]. rewrite published_app. f_equal.
  apply IH. by apply Forall_cons in Hok as [_ ?].
Qed.

(** X12. At verbosity 0 (or below) a run prints nothing at all, whatever
    happens: no start-up lines, no line for any frame, no connection notice,
    no exit line. *)
Theorem silent_at_verbosity_0 args c env :
  verbosity args <= 0 ->
  printed (telegram_part (run args c env).1) = [].
Proof.
  intros Hv. rewrite telegram_part_run.
  assert (printed (telegram_part (pyobj:=pyobj) (connect_events args c env))
          = []) as Hconnect.
  { unfold connect_events.
    replace (verbosity args >=? 1) with false by lia.
    by destruct (connect_result env), (connection_of env). }
  assert (printed (telegram_part (pyobj:=pyobj) (client:=client)
                     (interrupted_events args)) = []) as Hint.
  { unfold interrupted_events.
    by replace (verbosity args >=? 1) with false by lia. }
  assert (forall mqtt_client : option client,
            printed (telegram_part (pyobj:=pyobj) (exit_events args mqtt_client))
            = []) as Hexit.
  { intros mqtt_client. unfold exit_events.
    replace (verbosity args >=? 1) with false by lia.
    by destruct mqtt_client. }
  rewrite !printed_app, printed_startup_silent, Hconnect by done.
  cbn [app].
  destruct (connection_of env); [| |done];
    rewrite printed_app, Hexit, app_nil_r;
    (destruct (bus_result env) as [|[|text']]; [|done|done]);
    rewrite printed_app, loop_printed_at_verbosity_0 by done;
    by destruct ((loop _ args (recvs env) (recv_stop env)).2) as [[| |]|[]].
Qed.

Lemma loop_trace_stop mqtt_client args results stop stop' :
  (loop mqtt_client args results stop).1 =
  (loop mqtt_client args results stop').1.
Proof.
  induction results as [|[msg|] rest IH].
  - done.
  - rewrite !recv_loop_message. destruct (outcome _) as [e|[]]; cbn [fst];
      by rewrite ?IH.
  - rewrite !recv_loop_timeout. cbn [fst]. by rewrite IH.
Qed.

(** X13. An exception of [parse_telegram] ends the run. When the frames
    before a frame are parsed without an exception and that frame makes the
    routine raise [e], the run ends with [e] uncaught; nothing that the
    environment holds after that frame (later messages, the way the last
    [recv] would end) has any effect on the run. *)
Theorem failing_frame_ends_run args c connect_r loop_start_r pre msg post post'
    stop stop' (e : exn) :
  connection_of (mkEnv connect_r loop_start_r Returns (pre ++ Some msg :: post)
                   stop) <> Aborted ->
  Forall (fun m =>
            outcome
              (parse m
                 (client_after_connect c
                    (mkEnv connect_r loop_start_r Returns
                       (pre ++ Some msg :: post) stop))
                 (mqtt_prefix args) (verbosity args)) = inr tt)
    (messages pre) ->
  outcome
    (parse msg
       (client_after_connect c
          (mkEnv connect_r loop_start_r Returns (pre ++ Some msg :: post) stop))
       (mqtt_prefix args) (verbosity args)) = inl e ->
  (run args c
     (mkEnv connect_r loop_start_r Returns (pre ++ Some msg :: post) stop)).2 =
    inl (Uncaught e) /\
  run args c
    (mkEnv connect_r loop_start_r Returns (pre ++ Some msg :: post) stop) =
  run args c
    (mkEnv connect_r loop_start_r Returns (pre ++ Some msg :: post') stop').
Proof.
  intros Hconn Hok Hmsg.
  rewrite !main_unfold, !bus_phase.
  unfold client_after_connect, connect_events, connection_of in *.
  cbn [connect_result loop_start_result bus_result recvs recv_stop] in *.
  destruct connect_r as [|[|text1]], loop_start_r as [|[|text2]];
    try done; cbv zeta;
    rewrite !(loop_stops_at_failure _ args pre msg _ _ e) by done;
    cbn [fst snd];
    (split; [reflexivity|]);
    by rewrite (loop_trace_stop _ args pre stop stop').
Qed.

(** X14. How a run ends when no frame makes the routine raise and Ctrl+C
    did not arrive while connecting: Ctrl+C, during the opening of the bus
    or during a [recv], is caught and [main] returns normally; an error of
    the bus, at opening or in [recv], leaves [main] as that error. *)
Theorem run_outcome args c env :
  connection_of env <> Aborted ->
  Forall (fun msg =>
            outcome
              (parse msg (client_after_connect c env) (mqtt_prefix args)
                 (verbosity args)) = inr tt) (messages (recvs env)) ->
  (run args c env).2 =
  match bus_result env with
  | Raises Interrupt => inr tt
  | Raises (Fails text) => inl (Error text)
  | Returns =>
      match recv_stop env with
      | Interrupt => inr tt
      | Fails text => inl (Error text)
      end
  end.
Proof.
  intros Hconn Hok. rewrite outcome_run.
  destruct (loop_all_return _ args (recvs env) (recv_stop env) Hok) as [_ ->].
  destruct (connection_of env); [| |done];
    by destruct (bus_result env) as [|[|text']], (recv_stop env).
Qed.

(** X15. Ctrl+C during [connect] or [loop_start] leaves [main] at once, as
    a [KeyboardInterrupt]: the bus is never opened, no frame is received,
    the exit line is not printed and the client is neither stopped nor
    disconnected. The whole run is the start-up lines, the credentials and
    the calls made up to the interrupted one. *)
Theorem interrupt_while_connecting args c env :
  connection_of env = Aborted ->
  run args c env =
  ((if verbosity args >=? 1 then
      [ Telegram (Print "Starting CAN reader & Elster interpretation ...");
        Telegram (Print (str_mul "=" 70));
        Telegram (Print ("MQTT server: " +:+ mqtt_server args +:+ ":" +:+
                         str_int (mqtt_port args) +:+ ", user=" +:+
                         str_opt (mqtt_user args))) ]
    else []) ++
   (if truthy (mqtt_user args) && truthy (mqtt_pass args)
    then [UsernamePwSet c (mqtt_user args) (mqtt_pass args)]
    else []) ++
   Connect c (mqtt_server args) (mqtt_port args) 60 ::
   match connect_result env with
   | Returns => [LoopStart c]
   | Raises _ => []
   end,
   inl KeyboardInterrupt).
Proof.
  intros Hconn. rewrite main_unfold, Hconn.
  unfold connect_events. rewrite Hconn, app_nil_r. reflexivity.
Qed.

End Run.

(** ** The further properties on the sample frames and runs *)

Lemma raises_only_key_error_sample :
  outcome (defective_parse frame_answer (Some tt) "elster/" 2) =
    inl (KeyError "Name") /\
  trace (defective_parse frame_answer (Some tt) "elster/" 2) = [CallLookup 100].
Proof.
  assert (outcome (defective_parse frame_answer (Some tt) "elster/" 2) =
          inl (KeyError "Name")) as Hraise by reflexivity.
  split; [exact Hraise|].
  exact (proj1 (proj2 (raises_only_key_error pyval_str sample_Message_str
           defective_lookup sample_interpret frame_answer (Some tt) "elster/" 2
           (KeyError "Name") Hraise))).
Defined.

Lemma only_first_seven_bytes_read_sample :
  take 7 (data frame_answer) = take 7 (data frame_answer_long) /\
  sample_parse frame_answer (Some tt) "elster/" 2 =
  sample_parse frame_answer_long (Some tt) "elster/" 2 /\
  exists full_text raw_text,
    printed (trace (sample_parse frame_answer (Some tt) "elster/" 3)) =
      [ full_text;
        "  [DEBUG] Raw message: ID: 180 DL: 7";
        "  [DEBUG] data(hex): 1205000064012c";
        raw_text ] /\
    printed (trace (sample_parse frame_answer_long (Some tt) "elster/" 3)) =
      [ full_text;
        "  [DEBUG] Raw message: ID: 301 DL: 8";
        "  [DEBUG] data(hex): 1205000064012c7f";
        raw_text ].
Proof.
  assert (take 7 (data frame_answer) = take 7 (data frame_answer_long))
    as Htake by reflexivity.
  split; [exact Htake|].
  pose proof (fun v =>
                only_first_seven_bytes_read pyval_str sample_Message_str
                  sample_lookup sample_interpret frame_answer
                  frame_answer_long (Some tt) "elster/" v Htake) as H.
  split.
  - destruct (H 2) as (_ & _ & _ & _ & Heq & _). exact (Heq ltac:(lia)).
  - destruct (H 3) as (_ & _ & _ & _ & _ & _ & _ & Hdump).
    exact (proj2 (Hdump ltac:(lia) ltac:(unfold len; simpl; lia) eq_refl)).
Defined.

Lemma full_line_fixed_width_sample :
  5 <= len (data frame_answer) /\
  (exists rest,
     printed (trace (sample_parse frame_answer None "elster/" 2)) =
     "[Answer] CAN-ID: 085 | Elster-Index: 0x0064 (AUSSENTEMP) | Value: 300 | Type: et_dec_val"
     :: rest) /\
  String.length (format_0X 3 133) = 3%nat /\
  String.length (format_0X 4 100) = 4%nat.
Proof.
  assert (5 <= len (data frame_answer)) as Hlen by (unfold len; simpl; lia).
  split; [exact Hlen|].
  exact (full_line_fixed_width pyval_str sample_Message_str sample_lookup
           sample_interpret frame_answer None "elster/" 2
           (PStr "AUSSENTEMP") (PStr "et_dec_val") Hlen
           ltac:(reflexivity) ltac:(reflexivity) ltac:(lia)).
Defined.


Lemma cleanup_at_exit_sample :
  connection_of env_plain = Connected /\
  exists before,
    (sample_main (sample_args 1) tt env_plain).1 =
    before ++ [Telegram (Print (nl +:+ "Exiting."))] ++
    [LoopStop tt; Disconnect tt].
Proof.
  split; [reflexivity|].
  exact (cleanup_at_exit pyval_str sample_Message_str sample_lookup
           sample_interpret (sample_args 1) tt env_plain eq_refl).
Defined.

Lemma timeouts_skipped_sample :
  messages sample_results =
    messages [Some frame_answer; Some frame_short; Some frame_change] /\
  telegram_part (sample_main (sample_args 2) tt env_plain).1 =
  telegram_part
    (sample_main (sample_args 2) tt
       (mkEnv Returns Returns Returns
          [Some frame_answer; Some frame_short; Some frame_change]
          Interrupt)).1.
Proof.
  split; [reflexivity|].
  exact (proj1 (timeouts_skipped pyval_str sample_Message_str sample_lookup
           sample_interpret (sample_args 2) tt Returns Returns Returns
           sample_results
           [Some frame_answer; Some frame_short; Some frame_change]
           Interrupt eq_refl)).
Defined.

Lemma publishes_in_arrival_order_sample :
  connection_of env_plain = Connected /\
  bus_result env_plain = Returns /\
  published (telegram_part (sample_main (sample_args 2) tt env_plain).1) =
  flat_map (fun msg => published (trace (sample_parse msg (Some tt) "elster/" 2)))
    (messages (recvs env_plain)).
Proof.
  split; [reflexivity|]. split; [reflexivity|].
  apply (publishes_in_arrival_order pyval_str sample_Message_str sample_lookup
           sample_interpret (sample_args 2) tt env_plain eq_refl eq_refl).
  repeat constructor.
Defined.

Lemma silent_at_verbosity_0_sample :
  verbosity (sample_args 0) <= 0 /\
  printed (telegram_part (sample_main (sample_args 0) tt env_refused).1) = [].
Proof.
  assert (verbosity (sample_args 0) <= 0) as Hv by (simpl; lia).
  split; [exact Hv|].
  exact (silent_at_verbosity_0 pyval_str sample_Message_str sample_lookup
           sample_interpret (sample_args 0) tt env_refused Hv).
Defined.

Lemma failing_frame_ends_run_sample :
  (defective_main (sample_args 2) tt
     (mkEnv Returns Returns Returns
        ([None; Some frame_short] ++ Some frame_change :: [Some frame_answer])
        Interrupt)).2 = inl (Uncaught (KeyError "Type")) /\
  defective_main (sample_args 2) tt
    (mkEnv Returns Returns Returns
       ([None; Some frame_short] ++ Some frame_change :: [Some frame_answer])
       Interrupt) =
  defective_main (sample_args 2) tt
    (mkEnv Returns Returns Returns
       ([None; Some frame_short] ++ Some frame_change :: [])
       (Fails "bus down")).
Proof.
  apply (failing_frame_ends_run pyval_str sample_Message_str defective_lookup
           sample_interpret (sample_args 2) tt Returns Returns
           [None; Some frame_short] frame_change [Some frame_answer] []
           Interrupt (Fails "bus down") (KeyError "Type")).
  - discriminate.
  - repeat constructor.
  - reflexivity.
Defined.

Lemma run_outcome_sample :
  connection_of env_refused <> Aborted /\
  (sample_main (sample_args 2) tt env_refused).2 = inl (Error "bus down").
Proof.
  assert (connection_of env_refused <> Aborted) as Hconn by discriminate.
  split; [exact Hconn|].
  apply (run_outcome pyval_str sample_Message_str sample_lookup
           sample_interpret (sample_args 2) tt env_refused Hconn).
  repeat constructor.
Defined.

Lemma interrupt_while_connecting_sample :
  connection_of env_aborted = Aborted /\
  sample_main (sample_args 0) tt env_aborted =
  ([Connect tt "localhost" 1883 60; LoopStart tt], inl KeyboardInterrupt).
Proof.
  split; [reflexivity|].
  exact (interrupt_while_connecting pyval_str sample_Message_str sample_lookup
           sample_interpret (sample_args 0) tt env_aborted eq_refl).
Defined.
